(** * Configuration and bootstrap helpers of the CrowdStrike data collector

    A shallow embedding of [src/utils.py]: the logger factory
    [setup_logger], the environment loader [get_env_config] and the
    directory bootstrapper [ensure_directories], together with the Python
    built-ins they call ([str.split], [str.strip], [str.lower], [int],
    [os.path.join], [os.makedirs], the [logging] registry).

    Python strings are modelled by [string]; a character is a code point
    below 256, which is enough for every literal of the module.  The
    process state the three functions read and write (environment,
    working directory, file system, logging registry) is one record,
    threaded through a small state-and-exception monad. *)

From Stdlib Require Import ZArith NArith String Ascii List Bool Lia.
From stdpp Require Import gmap strings list fin_maps.

Local Open Scope string_scope.
Local Open Scope list_scope.

(** ** Python string built-ins *)

Module PyStr.

(** Truthiness of a [str]: only the empty string is falsy. *)
Definition truthy (s : string) : bool :=
  match s with
  | EmptyString => false
  | String _ _ => true
  end.

Definition in_range (lo hi : N) (c : ascii) : bool :=
  ((lo <=? N_of_ascii c) && (N_of_ascii c <=? hi))%N.

(** [str.isspace] on one character: TAB..CR, FS..US, SPACE, NEL, NBSP. *)
Definition isspace (c : ascii) : bool :=
  in_range 9 13 c || in_range 28 31 c || in_range 32 32 c
  || in_range 133 133 c || in_range 160 160 c.

(** The white space [int] skips around a literal: FS..US are not in it. *)
Definition int_space (c : ascii) : bool :=
  in_range 9 13 c || in_range 32 32 c
  || in_range 133 133 c || in_range 160 160 c.

Section Strip.
Variable drop : ascii -> bool.

Fixpoint lstrip_with (s : string) : string :=
  match s with
  | EmptyString => EmptyString
  | String c s' => if drop c then lstrip_with s' else s
  end.

Fixpoint rstrip_with (s : string) : string :=
  match s with
  | EmptyString => EmptyString
  | String c s' =>
      match rstrip_with s' with
      | EmptyString => if drop c then EmptyString else String c EmptyString
      | r => String c r
      end
  end.

Definition strip_with (s : string) : string := rstrip_with (lstrip_with s).
End Strip.

(** [s.strip()] *)
Definition strip (s : string) : string := strip_with isspace s.

(** [s.split(sep)] for a one-character separator: the pieces between
    the separators, empty pieces included; never the empty list. *)
Fixpoint split (sep : ascii) (s : string) : list string :=
  match s with
  | EmptyString => [EmptyString]
  | String c s' =>
      if Ascii.eqb c sep then EmptyString :: split sep s'
      else match split sep s' with
           | [] => [String c EmptyString]
           | piece :: rest => String c piece :: rest
           end
  end.

(** [str.lower] on one character: A..Z and the Latin-1 capitals. *)
Definition lower_char (c : ascii) : ascii :=
  if in_range 65 90 c || in_range 192 214 c || in_range 216 222 c
  then ascii_of_N (N_of_ascii c + 32)
  else c.

(** [s.lower()] *)
Fixpoint lower (s : string) : string :=
  match s with
  | EmptyString => EmptyString
  | String c s' => String (lower_char c) (lower s')
  end.

Definition is_digit (c : ascii) : bool := in_range 48 57 c.

Definition digit_val (c : ascii) : Z := Z.of_N (N_of_ascii c) - 48.

(** Digits after the first one; a single underscore may sit between two
    digits.  [pending] tells that the previous character was one. *)
Fixpoint parse_digits (acc : Z) (pending : bool) (s : string) : option Z :=
  match s with
  | EmptyString => if pending then None else Some acc
  | String c s' =>
      if is_digit c then parse_digits (acc * 10 + digit_val c) false s'
      else if Ascii.eqb c "_" then
             if pending then None else parse_digits acc true s'
      else None
  end.

(** The interpreter refuses literals of more than 4300 digits. *)
Definition max_str_digits : N := 4300.

Fixpoint count_digits (s : string) : N :=
  match s with
  | EmptyString => 0
  | String c s' => ((if is_digit c then 1 else 0) + count_digits s')%N
  end.

Definition parse_unsigned (s : string) : option Z :=
  if (max_str_digits <? count_digits s)%N then None
  else
    match s with
    | EmptyString => None
    | String c s' =>
        if is_digit c then parse_digits (digit_val c) false s' else None
    end.

(** [int(s)] in base ten: [None] stands for the [ValueError] Python
    raises on an invalid or too long literal. *)
Definition int (s : string) : option Z :=
  match strip_with int_space s with
  | String "+" r => parse_unsigned r
  | String "-" r => Z.opp <$> parse_unsigned r
  | t => parse_unsigned t
  end.

End PyStr.

(** ** Exceptions and the process state *)

Inductive os_error : Type :=
  | FileExistsError
  | FileNotFoundError
  | NotADirectoryError
  | IsADirectoryError.

Inductive exn : Type :=
  | ValueError (msg : string)
  | OSError (kind : os_error) (path : string).

Inductive result (A : Type) : Type :=
  | Ok (a : A)
  | Raise (e : exn).
Arguments Ok {A} a.
Arguments Raise {A} e.

Definition is_ok {A : Type} (r : result A) : bool :=
  match r with
  | Ok _ => true
  | Raise _ => false
  end.

(** What a path of the file system names.  The file system is a map from
    absolute paths to nodes: every directory can be searched and written
    to, there are no symbolic links, and the working directory exists.
    Access rights are outside the model, so [PermissionError] is not
    among the kinds of [os_error]. *)
Inductive node : Type :=
  | File
  | Dir.

#[global] Instance node_eq_dec : EqDecision node.
Proof. solve_decision. Defined.

(** Severities of the [logging] module. *)
Module Level.
Definition NOTSET : Z := 0.
Definition DEBUG : Z := 10.
Definition INFO : Z := 20.
Definition WARNING : Z := 30.
Definition ERROR : Z := 40.
Definition CRITICAL : Z := 50.
Definition named : list Z := [DEBUG; INFO; WARNING; ERROR; CRITICAL].
End Level.

(** Where a handler writes: [StreamHandler()] with no argument writes to
    the standard error stream, [FileHandler(p)] to the file it opened. *)
Inductive target : Type :=
  | Console
  | LogFile (baseFilename : string).

(** A handler object.  [h_id] is its identity: [addHandler] compares
    handlers by identity. *)
Record Handler : Type := mkHandler {
  h_id : nat;
  h_target : target;
  h_level : Z;
  h_formatter : option string
}.

Record Logger : Type := mkLogger {
  l_level : Z;
  l_handlers : list Handler
}.

(** The state of the process: [os.environ], the working directory, the
    file system (absolute path to node; the root is implicit), the
    loggers of [logging]'s manager by name, and the next fresh handler
    identity. *)
Record World : Type := mkWorld {
  environ : gmap string string;
  cwd : string;
  fs : gmap string node;
  loggers : gmap string Logger;
  next_id : nat
}.

Definition with_environ (e : gmap string string) (w : World) : World :=
  mkWorld e (cwd w) (fs w) (loggers w) (next_id w).

Definition with_fs (f : gmap string node) (w : World) : World :=
  mkWorld (environ w) (cwd w) f (loggers w) (next_id w).

Definition with_loggers (l : gmap string Logger) (w : World) : World :=
  mkWorld (environ w) (cwd w) (fs w) l (next_id w).

Definition with_next_id (n : nat) (w : World) : World :=
  mkWorld (environ w) (cwd w) (fs w) (loggers w) n.

(** ** The monad of Python statements

    A statement runs on a world and either returns a value or raises; in
    both cases the effects it had so far stay. *)

Definition M (A : Type) : Type := World -> result A * World.

#[global] Instance M_ret : MRet M := fun A a w => (Ok a, w).

#[global] Instance M_bind : MBind M := fun A B f m w =>
  match m w with
  | (Ok a, w') => f a w'
  | (Raise e, w') => (Raise e, w')
  end.

Definition raise {A : Type} (e : exn) : M A := fun w => (Raise e, w).

Definition gets {A : Type} (f : World -> A) : M A := fun w => (Ok (f w), w).

Definition modify (f : World -> World) : M unit := fun w => (Ok tt, f w).

(** [for x in xs: body(x)] *)
Fixpoint for_each {A : Type} (body : A -> M unit) (xs : list A) : M unit :=
  match xs with
  | [] => mret tt
  | x :: xs' => body x ;; for_each body xs'
  end.

(** ** Environment and file system primitives *)

(** Truthiness of a list: only the empty list is falsy. *)
Definition truthy_list {A : Type} (l : list A) : bool :=
  match l with
  | [] => false
  | _ :: _ => true
  end.

(** [os.getenv(key)]: [None] when the variable is unset. *)
Definition getenv (key : string) : M (option string) :=
  gets (fun w => environ w !! key).

(** [os.getenv(key, default)] *)
Definition getenv_default (key dflt : string) : M string :=
  gets (fun w => default dflt (environ w !! key)).

Definition getcwd : M string := gets cwd.

Definition startswith_sep (s : string) : bool :=
  match s with
  | String "/" _ => true
  | _ => false
  end.

Fixpoint endswith_sep (s : string) : bool :=
  match s with
  | EmptyString => false
  | String c EmptyString => Ascii.eqb c "/"
  | String _ s' => endswith_sep s'
  end.

(** [os.path.join(a, b)] of [posixpath]: an absolute [b] replaces [a],
    otherwise [b] is appended after one separator. *)
Definition join (a b : string) : string :=
  if startswith_sep b then b
  else if negb (PyStr.truthy a) || endswith_sep a then a +:+ b
  else a +:+ "/" +:+ b.

(** The path the system resolves a path argument to: a relative path is
    taken from the working directory.  This is the lookup that [mkdir]
    and [stat] do; nothing is normalised here, [os.path.abspath] is
    [os_path_abspath] below. *)
Definition resolve (name : string) : M string :=
  gets (fun w => join (cwd w) name).

(** The leading separators [os.path.normpath] keeps: one, or two when
    the path starts with exactly two. *)
Definition initial_slashes (path : string) : nat :=
  match path with
  | String "/" (String "/" (String "/" _)) => 1
  | String "/" (String "/" _) => 2
  | String "/" _ => 1
  | _ => 0
  end.

(** One turn of the loop of [os.path.normpath] over the components;
    [new_comps] holds the components kept so far, the last one first. *)
Definition norm_step (initial : nat) (new_comps : list string) (comp : string)
  : list string :=
  if bool_decide (comp = "" \/ comp = ".") then new_comps
  else if negb (String.eqb comp "..")
          || (Nat.eqb initial 0 && negb (truthy_list new_comps))
          || bool_decide (head new_comps = Some "..")
       then comp :: new_comps
       else tail new_comps.

Fixpoint slashes (n : nat) : string :=
  match n with
  | 0 => ""
  | S n' => String "/" (slashes n')
  end.

(** [os.path.normpath(path)] of [posixpath]: empty and [.] components
    go, [..] takes the component before it away, separators are not
    repeated and none is left at the end. *)
Definition normpath (path : string) : string :=
  if PyStr.truthy path then
    let initial := initial_slashes path in
    let comps := rev (foldl (norm_step initial) [] (PyStr.split "/" path)) in
    let out := slashes initial +:+ String.concat "/" comps in
    if PyStr.truthy out then out else "."
  else ".".

(** [os.path.abspath(path)] in the working directory [dir]. *)
Definition os_path_abspath (dir path : string) : string :=
  normpath (join dir path).

(** The system takes two leading separators as one. *)
Definition system_path (q : string) : string :=
  match q with
  | String "/" (String "/" r) => String "/" r
  | _ => q
  end.

(** The directories above a path: its non-empty prefixes that end just
    before a separator, shortest first. *)
Fixpoint ancestors_from (pre s : string) : list string :=
  match s with
  | EmptyString => []
  | String c s' =>
      (if Ascii.eqb c "/" && PyStr.truthy pre then [pre] else [])
        ++ ancestors_from (pre +:+ String c EmptyString) s'
  end.

Definition ancestors (q : string) : list string := ancestors_from "" q.

(** [os.path.exists(name)] *)
Definition path_exists (name : string) : M bool :=
  q ← resolve name;
  gets (fun w => bool_decide (is_Some (fs w !! q))).

(** The path that comes after [a] on the way down to [q]: the directory
    [os.makedirs] is making when it finds [a] above it. *)
Fixpoint next_after (a : string) (paths : list string) (q : string) : string :=
  match paths with
  | [] => q
  | b :: rest =>
      if String.eqb a b then hd q rest else next_after a rest q
  end.

(** One step of [os.makedirs q] above the leaf: a missing directory is
    created, an existing one is kept, and a regular file in the way
    makes the [mkdir] of the directory below it fail. *)
Definition ensure_parent (q a : string) : M unit :=
  fun w =>
    match fs w !! a with
    | None => (Ok tt, with_fs (<[a := Dir]> (fs w)) w)
    | Some Dir => (Ok tt, w)
    | Some File =>
        (Raise (OSError NotADirectoryError (next_after a (ancestors q) q)), w)
    end.

(** The last step of [os.makedirs]: [mkdir] of the leaf; a leaf that is
    already there is an error unless it is a directory and [exist_ok] is
    set. *)
Definition mkdir_leaf (q : string) (exist_ok : bool) : M unit :=
  fun w =>
    match fs w !! q with
    | None => (Ok tt, with_fs (<[q := Dir]> (fs w)) w)
    | Some Dir =>
        if exist_ok then (Ok tt, w) else (Raise (OSError FileExistsError q), w)
    | Some File => (Raise (OSError FileExistsError q), w)
    end.

(** [os.makedirs(name, exist_ok=exist_ok)]: the missing parents are
    created first, then the leaf.  The module passes absolute names
    only, under [os.getcwd()] or ["/tmp"], so an error names the path as
    it is resolved. *)
Definition makedirs (name : string) (exist_ok : bool) : M unit :=
  q ← resolve name;
  for_each (ensure_parent q) (ancestors q);;
  mkdir_leaf q exist_ok.

(** Walking down to a file: the first path that is not a directory stops
    the walk, with the error the system reports for it. *)
Fixpoint walk (f : gmap string node) (paths : list string) : option os_error :=
  match paths with
  | [] => None
  | a :: rest =>
      match f !! a with
      | Some Dir => walk f rest
      | Some File => Some NotADirectoryError
      | None => Some FileNotFoundError
      end
  end.

(** A NUL character somewhere in a string: no path may hold one. *)
Fixpoint has_nul (s : string) : bool :=
  match s with
  | EmptyString => false
  | String c s' => Ascii.eqb c "000" || has_nul s'
  end.

(** [open(q, "a")] for an absolute path in normal form, as
    [os.path.abspath] gives it: a path with a NUL character is refused
    before the system is asked, the root is a directory, the directories
    above the path must exist, the path must not be a directory, and a
    missing file is created. *)
Definition open_append (q : string) : M unit :=
  fun w =>
    let k := system_path q in
    if has_nul q then (Raise (ValueError "embedded null byte"), w)
    else if String.eqb k "/" then (Raise (OSError IsADirectoryError q), w)
    else
      match walk (fs w) (ancestors k) with
      | Some kind => (Raise (OSError kind q), w)
      | None =>
          match fs w !! k with
          | None => (Ok tt, with_fs (<[k := File]> (fs w)) w)
          | Some File => (Ok tt, w)
          | Some Dir => (Raise (OSError IsADirectoryError q), w)
          end
      end.

(** ** The [logging] registry *)

(** A logger is referred to by its key in the manager: [getLogger] hands
    out the same object for the same name, and the empty name and
    ["root"] both denote the root logger. *)
Definition logger_key (name : string) : string :=
  if PyStr.truthy name then name else "root".

(** A logger that was never configured: no handlers; the root logger
    starts at WARNING, every other one at NOTSET. *)
Definition fresh_logger (key : string) : Logger :=
  mkLogger (if String.eqb key "root" then Level.WARNING else Level.NOTSET) [].

(** [logging.getLogger(name)] *)
Definition getLogger (name : string) : M string :=
  fun w =>
    let key := logger_key name in
    match loggers w !! key with
    | Some _ => (Ok key, w)
    | None => (Ok key, with_loggers (<[key := fresh_logger key]> (loggers w)) w)
    end.

Definition update_logger (logger : string) (f : Logger -> Logger) : M unit :=
  modify (fun w => with_loggers (alter f logger (loggers w)) w).

(** [logger.setLevel(level)] *)
Definition Logger_setLevel (logger : string) (level : Z) : M unit :=
  update_logger logger (fun l => mkLogger level (l_handlers l)).

(** [logger.handlers] *)
Definition Logger_handlers (logger : string) : M (list Handler) :=
  gets (fun w => default [] (l_handlers <$> loggers w !! logger)).

(** [logger.handlers = hs] *)
Definition Logger_set_handlers (logger : string) (hs : list Handler) : M unit :=
  update_logger logger (fun l => mkLogger (l_level l) hs).

(** [logger.addHandler(h)]: appended unless that very object is attached. *)
Definition Logger_addHandler (logger : string) (h : Handler) : M unit :=
  update_logger logger (fun l =>
    if existsb (fun h' => Nat.eqb (h_id h') (h_id h)) (l_handlers l) then l
    else mkLogger (l_level l) (l_handlers l ++ [h])).

(** [logger.isEnabledFor(level)], for a logger whose own level is set
    and with nothing disabled. *)
Definition Logger_isEnabledFor (l : Logger) (level : Z) : bool :=
  (l_level l <=? level)%Z.

(** A record of severity [level] logged on [l] is handed to the handler
    [h] of [l]: the logger lets it through and the handler's own
    threshold does. *)
Definition handles (l : Logger) (h : Handler) (level : Z) : bool :=
  Logger_isEnabledFor l level && (h_level h <=? level)%Z.

(** [logging.Formatter(fmt)]: a formatter is its format string. *)
Definition Formatter (fmt : string) : string := fmt.

(** A new handler object: its own identity, level NOTSET, no formatter. *)
Definition new_handler (t : target) : M Handler :=
  fun w =>
    (Ok (mkHandler (next_id w) t Level.NOTSET None),
     with_next_id (S (next_id w)) w).

(** [logging.StreamHandler()]: a new handler on the console. *)
Definition StreamHandler : M Handler := new_handler Console.

(** [logging.FileHandler(filename)]: the handler keeps
    [os.path.abspath(filename)] as its [baseFilename], opens that file
    for appending, which may raise, and is a new handler on it. *)
Definition FileHandler (filename : string) : M Handler :=
  baseFilename ← gets (fun w => os_path_abspath (cwd w) filename);
  open_append baseFilename;;
  new_handler (LogFile baseFilename).

(** [h.setLevel(level)] and [h.setFormatter(fmt)], on a handler that is
    not attached yet. *)
Definition Handler_setLevel (level : Z) (h : Handler) : Handler :=
  mkHandler (h_id h) (h_target h) level (h_formatter h).

Definition Handler_setFormatter (fmt : string) (h : Handler) : Handler :=
  mkHandler (h_id h) (h_target h) (h_level h) (Some fmt).

(** Truthiness of an optional string. *)
Definition truthy_opt (o : option string) : bool :=
  match o with
  | None => false
  | Some s => PyStr.truthy s
  end.

(** ** The functions of [utils.py] *)

Definition log_format : string :=
  "[%(asctime)s] %(levelname)s %(name)s:%(lineno)d - %(message)s".

(** [setup_logger(name, logfile=None)]; the result is the reference to
    the logger. *)
Definition setup_logger (name : string) (logfile : option string) : M string :=
  logger ← getLogger name;
  Logger_setLevel logger Level.DEBUG;;
  handlers ← Logger_handlers logger;
  (if truthy_list handlers then Logger_set_handlers logger [] else mret tt);;
  let fmt := Formatter log_format in
  sh ← StreamHandler;
  let sh := Handler_setLevel Level.INFO sh in
  let sh := Handler_setFormatter fmt sh in
  Logger_addHandler logger sh;;
  (if truthy_opt logfile then
     fh ← FileHandler (default "" logfile);
     let fh := Handler_setLevel Level.DEBUG fh in
     let fh := Handler_setFormatter fmt fh in
     Logger_addHandler logger fh
   else mret tt);;
  mret logger.

(** The dictionary [get_env_config] returns. *)
Record Config : Type := mkConfig {
  script_names : list string;
  upload_to_bh : bool;
  max_retries : Z;
  retry_delay : Z
}.

Definition script_names_error : string :=
  "SCRIPT_FILE_NAMES environment variable not set. Provide comma-separated script filenames.".

(** [[s.strip() for s in value.split(",") if s.strip()]] *)
Definition parse_script_names (value : string) : list string :=
  s ← PyStr.split "," value;
  if PyStr.truthy (PyStr.strip s) then [PyStr.strip s] else [].

(** [try: int(value) except ValueError: fallback] *)
Definition int_or (fallback : Z) (value : string) : Z :=
  match PyStr.int value with
  | Some n => n
  | None => fallback
  end.

Section Utils.

(** [load_dotenv()] of the python-dotenv package: the environment it
    leaves behind, whatever file it finds. *)
Variable load_dotenv : World -> gmap string string.

Definition get_env_config : M Config :=
  dotenv ← path_exists ".env";
  (if (dotenv : bool) then modify (fun w => with_environ (load_dotenv w) w)
   else mret tt);;
  script_file_names ← getenv "SCRIPT_FILE_NAMES";
  if negb (truthy_opt script_file_names) then
    raise (ValueError script_names_error)
  else
    let script_names := parse_script_names (default "" script_file_names) in
    upload ← getenv_default "UPLOAD_TO_BLOODHOUND" "false";
    let upload_to_bh :=
      bool_decide (PyStr.lower upload ∈ ["1"; "true"; "yes"]) in
    retries ← getenv_default "MAX_RETRIES" "10";
    let max_retries := int_or 10 retries in
    delay ← getenv_default "RETRY_DELAY" "5";
    let retry_delay := int_or 5 delay in
    mret (mkConfig script_names upload_to_bh max_retries retry_delay).

End Utils.

Definition ensure_directories : M (string * string) :=
  marker ← getenv "WEBSITE_INSTANCE_ID";
  let is_azure_cloud := bool_decide (marker ≠ None) in
  base_dir ← (if is_azure_cloud then mret "/tmp" else getcwd);
  let logs_dir := join base_dir "logs" in
  let rtr_result_dir := join base_dir "rtr-result" in
  makedirs logs_dir true;;
  makedirs rtr_result_dir true;;
  mret (logs_dir, rtr_result_dir).

(** ** Notions the statements are written with *)

(** The world in which [get_env_config] reads its variables: the one it
    was called in, with the environment [load_dotenv] leaves when a
    [.env] file exists in the working directory. *)
Definition loaded (load_dotenv : World -> gmap string string) (w : World)
  : World :=
  if bool_decide (is_Some (fs w !! join (cwd w) ".env"))
  then with_environ (load_dotenv w) w
  else w.

(** The script names as the specification words them: split on commas,
    trim every entry, drop the empty ones. *)
Definition split_trim_discard (value : string) : list string :=
  filter (fun s => s ≠ "") (PyStr.strip <$> PyStr.split "," value).

(** Every character of a string is white space or a comma. *)
Definition blank_or_comma (c : ascii) : Prop :=
  PyStr.isspace c = true \/ c = ","%char.

(** The file system after the directories [paths] were made. *)
Definition add_dirs (paths : list string) (f : gmap string node)
  : gmap string node :=
  foldl (fun g a => <[a := Dir]> g) f paths.

(** A path and the directories above it. *)
Definition chain (q : string) : list string := ancestors q ++ [q].

(** No regular file sits at a path or above it, so that [os.makedirs]
    can create what is missing. *)
Definition creatable (f : gmap string node) (q : string) : bool :=
  forallb (fun a => bool_decide (f !! a ≠ Some File)) (chain q).

(** The two directories [ensure_directories] asks for. *)
Definition wanted_dirs (w : World) : string * string :=
  let base :=
    match environ w !! "WEBSITE_INSTANCE_ID" with
    | Some _ => "/tmp"
    | None => cwd w
    end in
  (join base "logs", join base "rtr-result").

(** Neither of them is blocked by a regular file. *)
Definition dirs_creatable (w : World) : bool :=
  creatable (fs w) (join (cwd w) (fst (wanted_dirs w)))
  && creatable (fs w) (join (cwd w) (snd (wanted_dirs w))).

(** [open(q, "a")] succeeds, for an absolute path [q] in normal form: it
    has no NUL character, it is not the root, the directories above it
    exist and it is not a directory itself. *)
Definition openable (f : gmap string node) (q : string) : bool :=
  negb (has_nul q)
  && negb (String.eqb (system_path q) "/")
  && forallb (fun a => bool_decide (f !! a = Some Dir))
             (ancestors (system_path q))
  && bool_decide (f !! system_path q ≠ Some Dir).

(** The exception [open(q, "a")] raises when it fails: [ValueError] for
    a NUL character; else the error of the first path above [q] that is
    missing or is not a directory; else the one for [q] being a
    directory. *)
Definition open_error (f : gmap string node) (q : string) : exn :=
  if has_nul q then ValueError "embedded null byte"
  else if String.eqb (system_path q) "/" then OSError IsADirectoryError q
  else
    match walk f (ancestors (system_path q)) with
    | Some kind => OSError kind q
    | None => OSError IsADirectoryError q
    end.

(** The file argument of [setup_logger] can be opened, when there is one. *)
Definition logfile_openable (logfile : option string) (w : World) : bool :=
  if truthy_opt logfile
  then openable (fs w) (os_path_abspath (cwd w) (default "" logfile))
  else true.

(** The handlers attached to a logger of the registry. *)
Definition handlers_of (w : World) (logger : string) : list Handler :=
  default [] (l_handlers <$> loggers w !! logger).

(** The two handlers [setup_logger] builds, by identity. *)
Definition console_handler (n : nat) : Handler :=
  mkHandler n Console Level.INFO (Some log_format).

Definition file_handler (n : nat) (q : string) : Handler :=
  mkHandler n (LogFile q) Level.DEBUG (Some log_format).

(** The world [setup_logger] leaves: the logger [key] at DEBUG with the
    handlers [hs], which are new objects, on the file system [f]. *)
Definition configured (w : World) (key : string) (hs : list Handler)
    (f : gmap string node) : World :=
  mkWorld (environ w) (cwd w) f
    (<[key := mkLogger Level.DEBUG hs]> (loggers w))
    (next_id w + length hs).

(** What a handler emits to, at which threshold, in which format. *)
Definition output_of (h : Handler) : target * Z * option string :=
  (h_target h, h_level h, h_formatter h).

(** The outputs a call of [setup_logger] with [logfile] asks for. *)
Definition requested_outputs (dir : string) (logfile : option string)
  : list (target * Z * option string) :=
  (Console, Level.INFO, Some log_format)
  :: match logfile with
     | Some (String c p) =>
         [(LogFile (os_path_abspath dir (String c p)), Level.DEBUG,
           Some log_format)]
     | _ => []
     end.

(** The file system only grew, and only by directories: every path is
    as it was, or was missing and is now a directory; the rest of the
    world is as it was. *)
Definition grows (w w' : World) : Prop :=
  environ w' = environ w /\ cwd w' = cwd w /\ loggers w' = loggers w
  /\ next_id w' = next_id w
  /\ forall p, fs w' !! p = fs w !! p
             \/ (fs w !! p = None /\ fs w' !! p = Some Dir).

(** The absolute paths of the two directories [ensure_directories]
    makes. *)
Definition logs_path (w : World) : string :=
  join (cwd w) (fst (wanted_dirs w)).

Definition result_path (w : World) : string :=
  join (cwd w) (snd (wanted_dirs w)).

(** What [join a] puts in front of a relative second argument. *)
Definition join_prefix (a : string) : string :=
  if negb (PyStr.truthy a) || endswith_sep a then a else a +:+ "/".



(** Decimal literals: the character of a digit, the string of a list of
    digits, most significant first, and the number it denotes. *)
Definition digit_char (d : nat) : ascii := ascii_of_nat (48 + d).

Definition digits_string (ds : list nat) : string :=
  string_of_list_ascii (digit_char <$> ds).

Definition decimal_value (ds : list nat) : Z :=
  foldl (fun acc d => acc * 10 + Z.of_nat d)%Z 0%Z ds.

(** A string holds a white space character. *)
Definition has_space (s : string) : bool :=
  existsb PyStr.isspace (list_ascii_of_string s).

(** The number of commas of a string. *)
Definition commas (s : string) : nat :=
  length (filter (fun c => c = ","%char) (list_ascii_of_string s)).

(** ** Sample worlds *)

(** A [load_dotenv] that finds nothing to add. *)
Definition dotenv_nothing (w : World) : gmap string string := environ w.

(** A [load_dotenv] that read [pairs] from the file: a variable that is
    already set keeps its value. *)
Definition dotenv_file (pairs : list (string * string)) (w : World)
  : gmap string string :=
  environ w ∪ list_to_map pairs.

Definition site_fs : gmap string node :=
  list_to_map [("/home", Dir); ("/home/site", Dir)].

Definition site_env : gmap string string :=
  list_to_map
    [("SCRIPT_FILE_NAMES", "a.ps1, , b.ps1 ,c.ps1");
     ("UPLOAD_TO_BLOODHOUND", "YES");
     ("MAX_RETRIES", "abc");
     ("RETRY_DELAY", "5s")].

(** A local run: the variables are set in the process, no [.env] file. *)
Definition site_world : World := mkWorld site_env "/home/site" site_fs ∅ 0.

(** A local run whose variables come from a [.env] file. *)
Definition dev_world : World :=
  mkWorld ∅ "/home/site" (<["/home/site/.env" := File]> site_fs) ∅ 0.

Definition dev_dotenv : World -> gmap string string :=
  dotenv_file [("SCRIPT_FILE_NAMES", " , ,")].

(** A local run where a regular file named [logs] is in the way. *)
Definition blocked_world : World :=
  mkWorld site_env "/home/site" (<["/home/site/logs" := File]> site_fs) ∅ 0.

(** A local run where a regular file named [rtr-result] is in the way. *)
Definition half_blocked_world : World :=
  mkWorld site_env "/home/site" (<["/home/site/rtr-result" := File]> site_fs) ∅ 0.

(** A local run with the optional variables set in unusual ways. *)
Definition tuned_world : World :=
  mkWorld
    (list_to_map
       [("SCRIPT_FILE_NAMES", "collect.ps1,report.ps1");
        ("UPLOAD_TO_BLOODHOUND", " true");
        ("MAX_RETRIES", "-3");
        ("RETRY_DELAY", "12")])
    "/home/site" site_fs ∅ 0.

(** A local run with white space around an integer. *)
Definition padded_world : World :=
  mkWorld
    (list_to_map [("SCRIPT_FILE_NAMES", "collect.ps1"); ("MAX_RETRIES", "  7 ")])
    "/home/site" site_fs ∅ 0.

(** A run with nothing configured. *)
Definition bare_world : World := mkWorld ∅ "/home/site" site_fs ∅ 0.

(** A deployed run: the marker is set, here to the empty string. *)
Definition cloud_world (marker : string) : World :=
  mkWorld (<["WEBSITE_INSTANCE_ID" := marker]> site_env) "/home/site"
    (<["/tmp" := Dir]> site_fs) ∅ 0.

(** A deployed run where [/tmp] is a regular file. *)
Definition cloud_blocked_world : World :=
  mkWorld (<["WEBSITE_INSTANCE_ID" := "1"]> site_env) "/home/site"
    (<["/tmp" := File]> site_fs) ∅ 0.

(** A local run with a regular file named [data] in the working
    directory. *)
Definition cluttered_world : World :=
  mkWorld site_env "/home/site" (<["/home/site/data" := File]> site_fs) ∅ 0.

(** ** Running the monad *)

Lemma world_eta (w : World) :
  mkWorld (environ w) (cwd w) (fs w) (loggers w) (next_id w) = w.
Proof. by destruct w. Qed.

Lemma with_fs_same (w : World) : with_fs (fs w) w = w.
Proof. apply world_eta. Qed.

Lemma bind_ok {A B : Type} (m : M A) (k : A -> M B) (w w' : World) (a : A) :
  m w = (Ok a, w') -> (m ≫= k) w = k a w'.
Proof. intros H. unfold mbind, M_bind. by rewrite H. Qed.

Lemma bind_raise {A B : Type} (m : M A) (k : A -> M B) (w w' : World) (e : exn) :
  m w = (Raise e, w') -> (m ≫= k) w = (Raise e, w').
Proof. intros H. unfold mbind, M_bind. by rewrite H. Qed.

Lemma bind_inv_ok {A B : Type} (m : M A) (k : A -> M B) (w w2 : World) (b : B) :
  (m ≫= k) w = (Ok b, w2) ->
  exists a w1, m w = (Ok a, w1) /\ k a w1 = (Ok b, w2).
Proof.
  unfold mbind, M_bind. destruct (m w) as [[a|e] w1]; intros H.
  - by exists a, w1.
  - discriminate.
Qed.

(** ** Python strings *)

Section StripFacts.

Variable drop : ascii -> bool.

Lemma lstrip_length (s : string) :
  String.length (PyStr.lstrip_with drop s) <= String.length s.
Proof.
  induction s as [|c s IH]; cbn; [lia|]. destruct (drop c); cbn; lia.
Qed.

Lemma lstrip_idem (s : string) :
  PyStr.lstrip_with drop (PyStr.lstrip_with drop s) = PyStr.lstrip_with drop s.
Proof.
  induction s as [|c s IH]; cbn; [done|].
  destruct (drop c) eqn:Hc; [done|]. cbn. by rewrite Hc.
Qed.

Lemma rstrip_cons (c : ascii) (s : string) :
  PyStr.rstrip_with drop (String c s)
  = match PyStr.rstrip_with drop s with
    | EmptyString => if drop c then EmptyString else String c EmptyString
    | r => String c r
    end.
Proof. reflexivity. Qed.

Lemma rstrip_idem (s : string) :
  PyStr.rstrip_with drop (PyStr.rstrip_with drop s) = PyStr.rstrip_with drop s.
Proof.
  induction s as [|c s IH]; [done|]. rewrite rstrip_cons.
  destruct (PyStr.rstrip_with drop s) as [|d r] eqn:Hr.
  - destruct (drop c) eqn:Hc; [done|]. by rewrite rstrip_cons, Hc.
  - by rewrite rstrip_cons, IH.
Qed.

(** Trimming on the right does not uncover anything to trim on the left. *)
Lemma lstrip_rstrip_fixed (s : string) :
  PyStr.lstrip_with drop s = s ->
  PyStr.lstrip_with drop (PyStr.rstrip_with drop s) = PyStr.rstrip_with drop s.
Proof.
  destruct s as [|c s]; [done|]. cbn [PyStr.lstrip_with].
  destruct (drop c) eqn:Hc.
  - intros H. pose proof (lstrip_length s) as Hlen.
    rewrite H in Hlen. cbn in Hlen. lia.
  - intros _. rewrite rstrip_cons.
    destruct (PyStr.rstrip_with drop s); rewrite ?Hc; cbn; by rewrite Hc.
Qed.

Lemma strip_with_idem (s : string) :
  PyStr.strip_with drop (PyStr.strip_with drop s) = PyStr.strip_with drop s.
Proof.
  unfold PyStr.strip_with.
  rewrite (lstrip_rstrip_fixed _ (lstrip_idem s)). apply rstrip_idem.
Qed.

End StripFacts.

(** A trimmed string is not trimmed further. *)
Lemma strip_idem (s : string) : PyStr.strip (PyStr.strip s) = PyStr.strip s.
Proof. apply strip_with_idem. Qed.

Lemma split_nonempty (sep : ascii) (s : string) : PyStr.split sep s ≠ [].
Proof.
  destruct s as [|c s]; cbn; [done|].
  destruct (Ascii.eqb c sep); [done|]. by destruct (PyStr.split sep s).
Qed.

(** Joining the pieces with the separator gives the string back. *)
Lemma split_concat (sep : ascii) (s : string) :
  String.concat (String sep "") (PyStr.split sep s) = s.
Proof.
  induction s as [|c s IH]; [done|]. cbn [PyStr.split].
  pose proof (split_nonempty sep s) as Hne.
  destruct (Ascii.eqb c sep) eqn:Hc.
  - apply Ascii.eqb_eq in Hc as ->.
    destruct (PyStr.split sep s) as [|piece rest]; [done|].
    change (String sep (String.concat (String sep "") (piece :: rest))
            = String sep s).
    by rewrite IH.
  - destruct (PyStr.split sep s) as [|piece rest]; [done|].
    rewrite <- IH. by destruct rest.
Qed.

(** No piece holds the separator. *)
Lemma split_pieces_no_sep (sep : ascii) (s : string) :
  Forall (fun piece => sep ∉ list_ascii_of_string piece) (PyStr.split sep s).
Proof.
  induction s as [|c s IH]; cbn.
  - constructor; [|done]. cbn. apply not_elem_of_nil.
  - destruct (Ascii.eqb c sep) eqn:Hc.
    + constructor; [|done]. cbn. apply not_elem_of_nil.
    + destruct (PyStr.split sep s) as [|piece rest]; cbn.
      * constructor; [|done]. apply Ascii.eqb_neq in Hc.
        intros [->|[]%elem_of_nil]%elem_of_cons. done.
      * apply Forall_cons in IH as [Hp Hrest]. constructor; [|done].
        apply Ascii.eqb_neq in Hc. cbn.
        intros [->|?]%elem_of_cons; done.
Qed.

(** The built-ins on a few inputs, as CPython answers them. *)

Example split_keeps_empty_pieces :
  PyStr.split "," "a,,b," = ["a"; ""; "b"; ""] /\ PyStr.split "," "" = [""].
Proof. split; reflexivity. Qed.

Example strip_examples :
  PyStr.strip "  b.ps1 " = "b.ps1" /\ PyStr.strip " a b " = "a b"
  /\ PyStr.strip "   " = "" /\ PyStr.lower "YeS" = "yes".
Proof. repeat split; reflexivity. Qed.

Example int_examples :
  PyStr.int " 12 " = Some 12%Z /\ PyStr.int "+5" = Some 5%Z
  /\ PyStr.int "-007" = Some (-7)%Z /\ PyStr.int "1_000" = Some 1000%Z
  /\ PyStr.int "_1" = None /\ PyStr.int "1__0" = None /\ PyStr.int "1_" = None
  /\ PyStr.int "- 5" = None /\ PyStr.int "" = None /\ PyStr.int "abc" = None
  /\ PyStr.int "0x10" = None /\ PyStr.int "10" = Some 10%Z
  /\ PyStr.int "5s" = None.
Proof. repeat split; reflexivity. Qed.

Example join_examples :
  join "/tmp" "logs" = "/tmp/logs" /\ join "/" "logs" = "/logs"
  /\ join "/home/site" "/tmp/logs" = "/tmp/logs"
  /\ ancestors "/home/site/logs" = ["/home"; "/home/site"].
Proof. repeat split; reflexivity. Qed.

(** ** The environment loader *)

Section GetEnvConfig.

Variable load_dotenv : World -> gmap string string.

(** What [get_env_config] computes, read off the loaded environment. *)
Lemma get_env_config_run (w : World) :
  get_env_config load_dotenv w =
  let w' := loaded load_dotenv w in
  let e := environ w' in
  if truthy_opt (e !! "SCRIPT_FILE_NAMES") then
    (Ok (mkConfig
           (parse_script_names (default "" (e !! "SCRIPT_FILE_NAMES")))
           (bool_decide (PyStr.lower (default "false" (e !! "UPLOAD_TO_BLOODHOUND"))
                         ∈ ["1"; "true"; "yes"]))
           (int_or 10 (default "10" (e !! "MAX_RETRIES")))
           (int_or 5 (default "5" (e !! "RETRY_DELAY")))), w')
  else (Raise (ValueError script_names_error), w').
Proof.
  unfold get_env_config, loaded, path_exists, resolve, getenv, getenv_default.
  unfold mbind, M_bind, mret, M_ret, gets, modify, raise. cbn.
  destruct (bool_decide _); cbn;
    destruct (truthy_opt _); reflexivity.
Qed.

Lemma truthy_spec (s : string) : PyStr.truthy s = true <-> s ≠ "".
Proof. destruct s; cbn; split; (done || congruence). Qed.

Lemma get_env_config_ok (w : World) (value : string) :
  environ (loaded load_dotenv w) !! "SCRIPT_FILE_NAMES" = Some value ->
  value ≠ "" ->
  exists cfg, get_env_config load_dotenv w = (Ok cfg, loaded load_dotenv w)
    /\ script_names cfg = parse_script_names value
    /\ upload_to_bh cfg =
         bool_decide (PyStr.lower (default "false"
           (environ (loaded load_dotenv w) !! "UPLOAD_TO_BLOODHOUND"))
           ∈ ["1"; "true"; "yes"])
    /\ max_retries cfg =
         int_or 10 (default "10" (environ (loaded load_dotenv w) !! "MAX_RETRIES"))
    /\ retry_delay cfg =
         int_or 5 (default "5" (environ (loaded load_dotenv w) !! "RETRY_DELAY")).
Proof.
  intros Hv Hne. rewrite get_env_config_run. cbn zeta. rewrite Hv. cbn.
  apply truthy_spec in Hne. rewrite Hne.
  eexists. split; [reflexivity|]. cbn. done.
Qed.

Lemma parse_script_names_spec (value : string) :
  parse_script_names value = split_trim_discard value.
Proof.
  unfold parse_script_names, split_trim_discard.
  induction (PyStr.split "," value) as [|s l IH]; [done|].
  cbn [mbind list_bind fmap list_fmap]. rewrite filter_cons.
  change (list_bind _ _ ?f l) with (l ≫= f). rewrite IH.
  destruct (PyStr.strip s) eqn:Hs; cbn.
  - by destruct (decide _).
  - destruct (decide _) as [|Hn]; [done|]. by destruct Hn.
Qed.

(** C1: when SCRIPT_FILE_NAMES is unset or empty in the environment
    [get_env_config] reads, the call raises the ValueError whose message
    names the variable and the comma-separated format, and returns no
    configuration. *)
Theorem get_env_config_requires_script_names (w : World) :
  environ (loaded load_dotenv w) !! "SCRIPT_FILE_NAMES" = None
  \/ environ (loaded load_dotenv w) !! "SCRIPT_FILE_NAMES" = Some "" ->
  fst (get_env_config load_dotenv w) = Raise (ValueError script_names_error)
  /\ (forall cfg, fst (get_env_config load_dotenv w) ≠ Ok cfg)
  /\ (exists pre post,
        script_names_error = pre +:+ "SCRIPT_FILE_NAMES" +:+ post)
  /\ (exists pre post,
        script_names_error = pre +:+ "comma-separated" +:+ post).
Proof.
  intros H.
  assert (Hr : fst (get_env_config load_dotenv w)
               = Raise (ValueError script_names_error)).
  { rewrite get_env_config_run. cbn zeta. by destruct H as [-> | ->]. }
  split; [exact Hr|]. split.
  - intros cfg. rewrite Hr. discriminate.
  - split.
    + by exists "", " environment variable not set. Provide comma-separated script filenames.".
    + by exists "SCRIPT_FILE_NAMES environment variable not set. Provide ",
               " script filenames.".
Qed.

Lemma split_trim_discard_tokens (value : string) :
  Forall (fun n => n ≠ "" /\ PyStr.strip n = n) (split_trim_discard value).
Proof.
  apply Forall_forall. intros n [Hn Hin]%list_elem_of_filter.
  apply list_elem_of_fmap in Hin as (piece & -> & _).
  split; [done | apply strip_idem].
Qed.

(** C2: when SCRIPT_FILE_NAMES is set and not empty, [script_names] is
    the value split on commas, every entry trimmed, the empty entries
    dropped: the trimmed entries in their order, repetitions kept, each
    one non-empty and without white space around it. *)
Theorem get_env_config_script_names (w : World) (value : string) :
  environ (loaded load_dotenv w) !! "SCRIPT_FILE_NAMES" = Some value ->
  value ≠ "" ->
  (exists cfg, fst (get_env_config load_dotenv w) = Ok cfg
     /\ script_names cfg = split_trim_discard value
     /\ script_names cfg `sublist_of` (PyStr.strip <$> PyStr.split "," value)
     /\ Forall (fun n => n ≠ "" /\ PyStr.strip n = n) (script_names cfg))
  /\ split_trim_discard "a.ps1, , b.ps1 ,c.ps1" = ["a.ps1"; "b.ps1"; "c.ps1"]
  /\ split_trim_discard "b.ps1,a.ps1 ,b.ps1" = ["b.ps1"; "a.ps1"; "b.ps1"].
Proof.
  intros Hv Hne. split; [|split; reflexivity].
  destruct (get_env_config_ok w value Hv Hne) as (cfg & Hrun & Hs & _).
  exists cfg. rewrite Hrun, Hs, parse_script_names_spec.
  split; [done|]. split; [done|]. split.
  - apply sublist_filter.
  - apply split_trim_discard_tokens.
Qed.

(** C3: with SCRIPT_FILE_NAMES validly set, MAX_RETRIES and RETRY_DELAY
    never make the call raise: a value [int] rejects, like an unset
    variable, gives the default 10, respectively 5. *)
Theorem get_env_config_int_defaults (w : World) (value : string) :
  environ (loaded load_dotenv w) !! "SCRIPT_FILE_NAMES" = Some value ->
  value ≠ "" ->
  exists cfg, fst (get_env_config load_dotenv w) = Ok cfg
    /\ (forall s, environ (loaded load_dotenv w) !! "MAX_RETRIES" = Some s ->
          PyStr.int s = None -> max_retries cfg = 10%Z)
    /\ (environ (loaded load_dotenv w) !! "MAX_RETRIES" = None ->
          max_retries cfg = 10%Z)
    /\ (forall s, environ (loaded load_dotenv w) !! "RETRY_DELAY" = Some s ->
          PyStr.int s = None -> retry_delay cfg = 5%Z)
    /\ (environ (loaded load_dotenv w) !! "RETRY_DELAY" = None ->
          retry_delay cfg = 5%Z)
    /\ (environ (loaded load_dotenv w) !! "MAX_RETRIES" = Some "abc" ->
          max_retries cfg = 10%Z).
Proof.
  intros Hv Hne.
  destruct (get_env_config_ok w value Hv Hne) as (cfg & Hrun & _ & _ & Hm & Hd).
  exists cfg. rewrite Hrun. split; [done|].
  rewrite Hm, Hd. unfold int_or.
  repeat split.
  - intros s -> Hs. cbn. by rewrite Hs.
  - by intros ->.
  - intros s -> Hs. cbn. by rewrite Hs.
  - by intros ->.
  - by intros ->.
Qed.

(** C4: with SCRIPT_FILE_NAMES validly set, [upload_to_bh] is true
    exactly when the lower-cased UPLOAD_TO_BLOODHOUND, read as "false"
    when unset, is "1", "true" or "yes". *)
Theorem get_env_config_upload_flag (w : World) (value : string) :
  environ (loaded load_dotenv w) !! "SCRIPT_FILE_NAMES" = Some value ->
  value ≠ "" ->
  exists cfg, fst (get_env_config load_dotenv w) = Ok cfg
    /\ (upload_to_bh cfg = true <->
        PyStr.lower (default "false"
          (environ (loaded load_dotenv w) !! "UPLOAD_TO_BLOODHOUND"))
        ∈ ["1"; "true"; "yes"])
    /\ (environ (loaded load_dotenv w) !! "UPLOAD_TO_BLOODHOUND" = Some "YES" ->
        upload_to_bh cfg = true)
    /\ (environ (loaded load_dotenv w) !! "UPLOAD_TO_BLOODHOUND" = Some "no" ->
        upload_to_bh cfg = false)
    /\ (environ (loaded load_dotenv w) !! "UPLOAD_TO_BLOODHOUND" = None ->
        upload_to_bh cfg = false).
Proof.
  intros Hv Hne.
  destruct (get_env_config_ok w value Hv Hne) as (cfg & Hrun & _ & Hu & _).
  exists cfg. rewrite Hrun. split; [done|].
  rewrite Hu. repeat split.
  - apply bool_decide_eq_true_1.
  - apply bool_decide_eq_true_2.
  - by intros ->.
  - by intros ->.
  - by intros ->.
Qed.

Lemma lstrip_all_dropped (drop : ascii -> bool) (s : string) :
  Forall (fun c => drop c = true) (list_ascii_of_string s) ->
  PyStr.lstrip_with drop s = "".
Proof.
  induction s as [|c s IH]; cbn; [done|].
  intros H. apply Forall_cons in H as [-> H]. by apply IH.
Qed.

Lemma strip_all_space (s : string) :
  Forall (fun c => PyStr.isspace c = true) (list_ascii_of_string s) ->
  PyStr.strip s = "".
Proof.
  intros H. unfold PyStr.strip, PyStr.strip_with.
  by rewrite lstrip_all_dropped.
Qed.

Lemma split_blank_pieces (s : string) :
  Forall blank_or_comma (list_ascii_of_string s) ->
  Forall (fun piece =>
            Forall (fun c => PyStr.isspace c = true) (list_ascii_of_string piece))
         (PyStr.split "," s).
Proof.
  induction s as [|c s IH]; cbn.
  - intros _. by repeat constructor.
  - intros H. apply Forall_cons in H as [Hc H]. specialize (IH H).
    destruct (Ascii.eqb c ",") eqn:Hsep.
    + constructor; [constructor | exact IH].
    + destruct Hc as [Hc | ->]; [|by rewrite Ascii.eqb_refl in Hsep].
      destruct (PyStr.split "," s) as [|piece rest] eqn:Hsplit.
      * by destruct (split_nonempty "," s).
      * apply Forall_cons in IH as [Hp Hrest].
        constructor; [|exact Hrest]. cbn. by constructor.
Qed.

Lemma parse_script_names_blank (value : string) :
  Forall blank_or_comma (list_ascii_of_string value) ->
  parse_script_names value = [].
Proof.
  intros H. apply split_blank_pieces in H. unfold parse_script_names.
  induction H as [|piece rest Hp _ IH]; [done|].
  cbn [mbind list_bind]. change (list_bind _ _ ?f rest) with (rest ≫= f).
  rewrite IH. by rewrite (strip_all_space piece Hp).
Qed.

(** C9: a SCRIPT_FILE_NAMES that is not empty but holds only white space
    and commas passes the emptiness test, which is made on the raw
    string: the call does not raise and [script_names] is empty. *)
Theorem get_env_config_blank_script_names (w : World) (value : string) :
  environ (loaded load_dotenv w) !! "SCRIPT_FILE_NAMES" = Some value ->
  value ≠ "" ->
  Forall blank_or_comma (list_ascii_of_string value) ->
  exists cfg, fst (get_env_config load_dotenv w) = Ok cfg
    /\ script_names cfg = [].
Proof.
  intros Hv Hne Hblank.
  destruct (get_env_config_ok w value Hv Hne) as (cfg & Hrun & Hs & _).
  exists cfg. rewrite Hrun. split; [done|].
  by rewrite Hs, parse_script_names_blank.
Qed.

End GetEnvConfig.

(** Witnesses for the loader. *)

Lemma get_env_config_requires_script_names_witness :
  (environ (loaded dotenv_nothing bare_world) !! "SCRIPT_FILE_NAMES" = None
   \/ environ (loaded dotenv_nothing bare_world) !! "SCRIPT_FILE_NAMES" = Some "")
  /\ fst (get_env_config dotenv_nothing bare_world)
     = Raise (ValueError script_names_error).
Proof.
  assert (H : environ (loaded dotenv_nothing bare_world) !! "SCRIPT_FILE_NAMES"
              = None
              \/ environ (loaded dotenv_nothing bare_world) !! "SCRIPT_FILE_NAMES"
                 = Some "").
  { left. vm_compute. reflexivity. }
  split; [exact H|].
  exact (proj1 (get_env_config_requires_script_names dotenv_nothing bare_world H)).
Defined.

Lemma get_env_config_script_names_witness :
  exists cfg, fst (get_env_config dotenv_nothing site_world) = Ok cfg
    /\ script_names cfg = ["a.ps1"; "b.ps1"; "c.ps1"].
Proof.
  destruct (get_env_config_script_names dotenv_nothing site_world
              "a.ps1, , b.ps1 ,c.ps1") as [(cfg & Hok & Hs & _) [Hex _]].
  - vm_compute. reflexivity.
  - discriminate.
  - exists cfg. split; [exact Hok|]. by rewrite Hs.
Defined.

Lemma get_env_config_int_defaults_witness :
  exists cfg, fst (get_env_config dotenv_nothing site_world) = Ok cfg
    /\ max_retries cfg = 10%Z /\ retry_delay cfg = 5%Z.
Proof.
  destruct (get_env_config_int_defaults dotenv_nothing site_world
              "a.ps1, , b.ps1 ,c.ps1") as (cfg & Hok & H1 & _ & H2 & _).
  - vm_compute. reflexivity.
  - discriminate.
  - exists cfg. split; [exact Hok|]. split.
    + apply (H1 "abc"); vm_compute; reflexivity.
    + apply (H2 "5s"); vm_compute; reflexivity.
Defined.

Lemma get_env_config_upload_flag_witness :
  exists cfg, fst (get_env_config dotenv_nothing site_world) = Ok cfg
    /\ upload_to_bh cfg = true.
Proof.
  destruct (get_env_config_upload_flag dotenv_nothing site_world
              "a.ps1, , b.ps1 ,c.ps1") as (cfg & Hok & _ & H1 & _).
  - vm_compute. reflexivity.
  - discriminate.
  - exists cfg. split; [exact Hok|]. apply H1. vm_compute. reflexivity.
Defined.

Lemma get_env_config_blank_script_names_witness :
  exists cfg, fst (get_env_config dev_dotenv dev_world) = Ok cfg
    /\ script_names cfg = [].
Proof.
  apply (get_env_config_blank_script_names dev_dotenv dev_world " , ,").
  - vm_compute. reflexivity.
  - discriminate.
  - cbn. repeat (apply Forall_cons_2;
                 [first [left; reflexivity | right; reflexivity]|]).
    apply Forall_nil_2.
Defined.

(** ** The directory bootstrapper *)

Lemma add_dirs_lookup (paths : list string) (f : gmap string node) (k : string) :
  add_dirs paths f !! k = if bool_decide (k ∈ paths) then Some Dir else f !! k.
Proof.
  revert f. induction paths as [|a l IH]; intros f; [done|].
  unfold add_dirs in *. cbn [foldl]. rewrite IH.
  destruct (decide (k ∈ l)) as [Hl|Hl].
  - rewrite !bool_decide_eq_true_2; [done| |done]. by right.
  - rewrite (bool_decide_eq_false_2 _ Hl).
    destruct (decide (k = a)) as [->|Hne].
    + rewrite lookup_insert_eq. rewrite bool_decide_eq_true_2; [done|by left].
    + rewrite lookup_insert_ne by done.
      rewrite bool_decide_eq_false_2; [done|].
      intros [?|?]%elem_of_cons; done.
Qed.

Lemma add_dirs_present (paths : list string) (f : gmap string node) :
  (forall a, a ∈ paths -> f !! a = Some Dir) -> add_dirs paths f = f.
Proof.
  intros H. apply map_eq. intros k. rewrite add_dirs_lookup.
  case_bool_decide; [|done]. symmetry. by apply H.
Qed.

Lemma creatable_spec (f : gmap string node) (q : string) :
  creatable f q = true <-> forall a, a ∈ chain q -> f !! a ≠ Some File.
Proof.
  unfold creatable. rewrite forallb_forall. split; intros H a Ha.
  - apply list_elem_of_In in Ha. apply H in Ha. by apply bool_decide_eq_true_1 in Ha.
  - apply list_elem_of_In in Ha. apply bool_decide_eq_true_2. by apply H.
Qed.

Lemma ensure_parent_ok {leaf : string} (a : string) (w : World) :
  fs w !! a ≠ Some File ->
  ensure_parent leaf a w = (Ok tt, with_fs (<[a := Dir]> (fs w)) w).
Proof.
  intros H. unfold ensure_parent.
  destruct (fs w !! a) as [[]|] eqn:Ha; [done| |done].
  by rewrite insert_id, with_fs_same.
Qed.

Lemma mkdir_leaf_ok (q : string) (w : World) :
  fs w !! q ≠ Some File ->
  mkdir_leaf q true w = (Ok tt, with_fs (<[q := Dir]> (fs w)) w).
Proof.
  intros H. unfold mkdir_leaf.
  destruct (fs w !! q) as [[]|] eqn:Hq; [done| |done].
  by rewrite insert_id, with_fs_same.
Qed.

Lemma for_each_ensure_parent_ok {leaf : string} (paths : list string) (w : World) :
  (forall a, a ∈ paths -> fs w !! a ≠ Some File) ->
  for_each (ensure_parent leaf) paths w = (Ok tt, with_fs (add_dirs paths (fs w)) w).
Proof.
  revert w. induction paths as [|a l IH]; intros w H.
  - cbn. by rewrite with_fs_same.
  - cbn [for_each].
    rewrite (bind_ok _ _ w _ tt (ensure_parent_ok a w (H a ltac:(by left)))).
    rewrite IH; [done|]. intros b Hb. cbn.
    destruct (decide (a = b)) as [->|Hne].
    + by rewrite lookup_insert_eq.
    + rewrite lookup_insert_ne by done. apply H. by right.
Qed.

Lemma for_each_ensure_parent_inv {leaf : string} (paths : list string) (w w' : World) :
  for_each (ensure_parent leaf) paths w = (Ok tt, w') ->
  forall a, a ∈ paths -> fs w !! a ≠ Some File.
Proof.
  revert w. induction paths as [|b l IH]; intros w H a Ha.
  - by apply elem_of_nil in Ha.
  - cbn [for_each] in H. apply bind_inv_ok in H as ([] & w1 & Hb & Hl).
    assert (Hnf : fs w !! b ≠ Some File).
    { unfold ensure_parent in Hb. by destruct (fs w !! b) as [[]|]. }
    apply elem_of_cons in Ha as [->|Ha]; [done|].
    rewrite (ensure_parent_ok b w Hnf) in Hb. injection Hb as <-.
    specialize (IH _ Hl a Ha). cbn in IH.
    destruct (decide (b = a)) as [->|Hne]; [done|].
    by rewrite lookup_insert_ne in IH.
Qed.

Lemma makedirs_ok (name : string) (w : World) :
  creatable (fs w) (join (cwd w) name) = true ->
  makedirs name true w
  = (Ok tt, with_fs (add_dirs (chain (join (cwd w) name)) (fs w)) w).
Proof.
  intros C. pose proof (proj1 (creatable_spec _ _) C) as H. clear C.
  set (q := join (cwd w) name) in *.
  unfold makedirs. rewrite (bind_ok _ _ w w q) by done.
  rewrite (bind_ok _ _ w _ tt
             (for_each_ensure_parent_ok (ancestors q) w
                ltac:(intros a Ha; apply H; unfold chain; apply elem_of_app; by left))).
  rewrite mkdir_leaf_ok.
  - cbn. unfold chain, add_dirs. by rewrite foldl_app.
  - cbn. rewrite add_dirs_lookup. case_bool_decide; [done|].
    apply H. unfold chain. apply elem_of_app. right. by left.
Qed.

Lemma makedirs_inv (name : string) (w w' : World) :
  makedirs name true w = (Ok tt, w') ->
  creatable (fs w) (join (cwd w) name) = true.
Proof.
  intros H. apply creatable_spec. set (q := join (cwd w) name).
  unfold makedirs in H. rewrite (bind_ok _ _ w w q) in H by done.
  apply bind_inv_ok in H as ([] & w1 & Hup & Hleaf).
  pose proof (for_each_ensure_parent_inv _ _ _ Hup) as Hanc.
  unfold chain.
  intros a [Ha | ->%list_elem_of_singleton]%elem_of_app; [by apply Hanc|].
  rewrite (for_each_ensure_parent_ok _ _ Hanc) in Hup. injection Hup as <-.
  unfold mkdir_leaf in Hleaf. cbn in Hleaf. rewrite add_dirs_lookup in Hleaf.
  case_bool_decide as Hin; [by apply Hanc|].
  by destruct (fs w !! q) as [[]|].
Qed.

(** [ensure_directories] makes the two wanted directories in turn and
    returns their paths. *)
Lemma ensure_directories_run (w : World) :
  ensure_directories w =
  match makedirs (fst (wanted_dirs w)) true w with
  | (Ok _, w1) =>
      match makedirs (snd (wanted_dirs w)) true w1 with
      | (Ok _, w2) => (Ok (wanted_dirs w), w2)
      | (Raise e, w2) => (Raise e, w2)
      end
  | (Raise e, w1) => (Raise e, w1)
  end.
Proof.
  unfold ensure_directories, wanted_dirs, getenv, getcwd.
  unfold mbind at 1 2. unfold M_bind, gets.
  destruct (environ w !! "WEBSITE_INSTANCE_ID") as [v|]; cbn;
    unfold mbind, M_bind, mret, M_ret;
    destruct (makedirs _ true w) as [[[]|e] w1]; try done;
    destruct (makedirs _ true w1) as [[[]|e] w2]; done.
Qed.

Lemma ensure_directories_returns_wanted (w : World) (dirs : string * string) :
  fst (ensure_directories w) = Ok dirs -> dirs = wanted_dirs w.
Proof.
  rewrite ensure_directories_run.
  destruct (makedirs _ true w) as [[[]|e] w1]; [|done].
  destruct (makedirs _ true w1) as [[[]|e] w2]; [|done].
  cbn. congruence.
Qed.

Lemma ensure_directories_ok (w : World) :
  dirs_creatable w = true ->
  ensure_directories w
  = (Ok (wanted_dirs w),
     with_fs (add_dirs (chain (join (cwd w) (snd (wanted_dirs w))))
                (add_dirs (chain (join (cwd w) (fst (wanted_dirs w)))) (fs w)))
             w).
Proof.
  unfold dirs_creatable. intros [H1 H2]%andb_prop.
  rewrite ensure_directories_run, (makedirs_ok _ _ H1).
  rewrite makedirs_ok; [done|]. cbn.
  apply creatable_spec. intros a Ha. rewrite add_dirs_lookup.
  case_bool_decide; [done|]. by apply (proj1 (creatable_spec _ _) H2).
Qed.

(** The first call returns exactly when no regular file is in the way. *)
Lemma ensure_directories_ok_iff (w : World) :
  is_ok (fst (ensure_directories w)) = true <-> dirs_creatable w = true.
Proof.
  split; [|intros H; by rewrite ensure_directories_ok].
  rewrite ensure_directories_run. unfold dirs_creatable.
  destruct (makedirs _ true w) as [[[]|e] w1] eqn:H1; [|done].
  destruct (makedirs _ true w1) as [[[]|e] w2] eqn:H2; [|done].
  intros _. apply andb_true_intro.
  pose proof (makedirs_inv _ _ _ H1) as C1. split; [exact C1|].
  pose proof (makedirs_inv _ _ _ H2) as C2.
  rewrite (makedirs_ok _ _ C1) in H1. injection H1 as <-. cbn in C2.
  apply creatable_spec. intros a Ha.
  pose proof (proj1 (creatable_spec _ _) C2 a Ha) as Ca.
  rewrite add_dirs_lookup in Ca.
  case_bool_decide as Hin; [|done].
  by apply (proj1 (creatable_spec _ _) C1).
Qed.

(** After a successful call both directories, and those above them, are
    directories of the file system. *)
Lemma made_dirs_present (f : gmap string node) (q1 q2 a : string) :
  a ∈ chain q1 \/ a ∈ chain q2 ->
  add_dirs (chain q2) (add_dirs (chain q1) f) !! a = Some Dir.
Proof.
  intros H. rewrite !add_dirs_lookup.
  case_bool_decide; [done|]. case_bool_decide; [done|]. by destruct H.
Qed.

Lemma chain_last (q : string) : q ∈ chain q.
Proof. unfold chain. apply elem_of_app. right. by left. Qed.

(** C5: [ensure_directories] returns the pair (logs directory, result
    directory), the sub-directories "logs" and "rtr-result" of "/tmp"
    when WEBSITE_INSTANCE_ID is set to a non-empty value and of the
    working directory when it is unset: no other pair is ever returned,
    and that one is whenever no regular file blocks the directories. *)
Theorem ensure_directories_paths (w : World) (base : string) :
  ((exists v, environ w !! "WEBSITE_INSTANCE_ID" = Some v /\ v ≠ "")
   /\ base = "/tmp")
  \/ (environ w !! "WEBSITE_INSTANCE_ID" = None /\ base = cwd w) ->
  (forall dirs, fst (ensure_directories w) = Ok dirs ->
     dirs = (join base "logs", join base "rtr-result"))
  /\ (dirs_creatable w = true ->
      fst (ensure_directories w) = Ok (join base "logs", join base "rtr-result")).
Proof.
  intros H.
  assert (Hw : wanted_dirs w = (join base "logs", join base "rtr-result")).
  { unfold wanted_dirs.
    destruct H as [[(v & -> & _) ->] | [-> ->]]; reflexivity. }
  split.
  - intros dirs Hd. apply ensure_directories_returns_wanted in Hd. congruence.
  - intros Hc. by rewrite (ensure_directories_ok w Hc), Hw.
Qed.

(** C8: in a file system where no regular file blocks the directories,
    two calls in a row both return, with the same pair of paths; the
    second one finds the directories made by the first and changes
    nothing. *)
Theorem ensure_directories_idempotent (w : World) :
  dirs_creatable w = true ->
  exists dirs w1,
    ensure_directories w = (Ok dirs, w1)
    /\ ensure_directories w1 = (Ok dirs, w1)
    /\ fs w1 !! join (cwd w) (fst dirs) = Some Dir
    /\ fs w1 !! join (cwd w) (snd dirs) = Some Dir.
Proof.
  intros Hc. rewrite (ensure_directories_ok w Hc).
  set (q1 := join (cwd w) (fst (wanted_dirs w))).
  set (q2 := join (cwd w) (snd (wanted_dirs w))).
  set (f1 := add_dirs (chain q2) (add_dirs (chain q1) (fs w))).
  exists (wanted_dirs w), (with_fs f1 w).
  assert (Hdir : forall a, a ∈ chain q1 \/ a ∈ chain q2 -> f1 !! a = Some Dir)
    by (intros a Ha; by apply made_dirs_present).
  split; [done|]. split.
  - assert (Hc1 : dirs_creatable (with_fs f1 w) = true).
    { unfold dirs_creatable. apply andb_true_intro.
      split; apply creatable_spec; intros a Ha; cbn;
        change (f1 !! a ≠ Some File); rewrite Hdir; auto. }
    rewrite (ensure_directories_ok _ Hc1).
    change (wanted_dirs (with_fs f1 w)) with (wanted_dirs w).
    change (cwd (with_fs f1 w)) with (cwd w).
    change (fs (with_fs f1 w)) with f1. fold q1 q2.
    rewrite (add_dirs_present (chain q1) f1) by auto.
    by rewrite (add_dirs_present (chain q2) f1) by auto.
  - split; apply Hdir; [left|right]; apply chain_last.
Qed.

(** C10: with WEBSITE_INSTANCE_ID set to the empty string the run counts
    as deployed: the directories are "/tmp/logs" and "/tmp/rtr-result",
    whatever the working directory is. *)
Theorem ensure_directories_empty_marker (w : World) :
  environ w !! "WEBSITE_INSTANCE_ID" = Some "" ->
  wanted_dirs w = ("/tmp/logs", "/tmp/rtr-result")
  /\ (forall dirs, fst (ensure_directories w) = Ok dirs ->
      dirs = ("/tmp/logs", "/tmp/rtr-result"))
  /\ (dirs_creatable w = true ->
      fst (ensure_directories w) = Ok ("/tmp/logs", "/tmp/rtr-result")
      /\ fs (snd (ensure_directories w)) !! "/tmp/logs" = Some Dir
      /\ fs (snd (ensure_directories w)) !! "/tmp/rtr-result" = Some Dir).
Proof.
  intros H.
  assert (Hw : wanted_dirs w = ("/tmp/logs", "/tmp/rtr-result")).
  { unfold wanted_dirs. by rewrite H. }
  split; [exact Hw|]. split.
  - intros dirs Hd. apply ensure_directories_returns_wanted in Hd. congruence.
  - intros Hc. rewrite (ensure_directories_ok w Hc), Hw. cbn [fst snd].
    split; [done|].
    change (join (cwd w) "/tmp/logs") with "/tmp/logs".
    change (join (cwd w) "/tmp/rtr-result") with "/tmp/rtr-result".
    split; apply made_dirs_present; [left|right]; apply chain_last.
Qed.

(** A regular file in the way is the error [os.makedirs] reports, and
    without [exist_ok] a second creation would fail. *)
Example ensure_directories_blocked :
  fst (ensure_directories blocked_world)
  = Raise (OSError FileExistsError "/home/site/logs")
  /\ dirs_creatable blocked_world = false.
Proof. split; vm_compute; reflexivity. Qed.

Example makedirs_without_exist_ok :
  fst (makedirs "/home/site/logs" false (snd (ensure_directories site_world)))
  = Raise (OSError FileExistsError "/home/site/logs")
  /\ fst (makedirs "/home/site/logs" true (snd (ensure_directories site_world)))
     = Ok tt.
Proof. split; vm_compute; reflexivity. Qed.

(** A regular file above the directory makes the [mkdir] of the path
    just below the file fail, and that path is the one the error names. *)
Example ensure_directories_file_above :
  fst (ensure_directories cloud_blocked_world)
  = Raise (OSError NotADirectoryError "/tmp/logs")
  /\ fst (makedirs "/home/site/data/2026/11" true cluttered_world)
     = Raise (OSError NotADirectoryError "/home/site/data/2026").
Proof. split; vm_compute; reflexivity. Qed.

(** Witnesses for the bootstrapper. *)

Lemma ensure_directories_paths_witness :
  fst (ensure_directories site_world)
  = Ok ("/home/site/logs", "/home/site/rtr-result")
  /\ fst (ensure_directories (cloud_world "sandbox-0"))
     = Ok ("/tmp/logs", "/tmp/rtr-result").
Proof.
  split.
  - refine (proj2 (ensure_directories_paths site_world "/home/site" _) _).
    + right. split; vm_compute; reflexivity.
    + vm_compute. reflexivity.
  - refine (proj2 (ensure_directories_paths (cloud_world "sandbox-0") "/tmp" _) _).
    + left. split; [|reflexivity]. exists "sandbox-0".
      split; [vm_compute; reflexivity | discriminate].
    + vm_compute. reflexivity.
Defined.

Lemma ensure_directories_idempotent_witness :
  dirs_creatable site_world = true
  /\ exists dirs w1,
       ensure_directories site_world = (Ok dirs, w1)
       /\ ensure_directories w1 = (Ok dirs, w1)
       /\ fs w1 !! join (cwd site_world) (fst dirs) = Some Dir
       /\ fs w1 !! join (cwd site_world) (snd dirs) = Some Dir.
Proof.
  assert (H : dirs_creatable site_world = true) by (vm_compute; reflexivity).
  split; [exact H|]. exact (ensure_directories_idempotent site_world H).
Defined.

Lemma ensure_directories_empty_marker_witness :
  environ (cloud_world "") !! "WEBSITE_INSTANCE_ID" = Some ""
  /\ fst (ensure_directories (cloud_world ""))
     = Ok ("/tmp/logs", "/tmp/rtr-result").
Proof.
  assert (H : environ (cloud_world "") !! "WEBSITE_INSTANCE_ID" = Some "")
    by (vm_compute; reflexivity).
  split; [exact H|].
  refine (proj1 (proj2 (proj2 (ensure_directories_empty_marker (cloud_world "") H)) _)).
  vm_compute. reflexivity.
Defined.

(** ** The logger factory *)

Lemma getLogger_run (name : string) (w : World) :
  getLogger name w
  = (Ok (logger_key name),
     with_loggers
       (<[logger_key name :=
            default (fresh_logger (logger_key name))
                    (loggers w !! logger_key name)]> (loggers w)) w).
Proof.
  unfold getLogger. destruct (loggers w !! logger_key name) as [l|] eqn:Hl.
  - cbn. rewrite insert_id by done. unfold with_loggers. by rewrite world_eta.
  - done.
Qed.

Lemma update_logger_run (key : string) (f : Logger -> Logger) (x : Logger)
    (m : gmap string Logger) (w : World) :
  update_logger key f (with_loggers (<[key := x]> m) w)
  = (Ok tt, with_loggers (<[key := f x]> m) w).
Proof.
  unfold update_logger, modify, with_loggers. cbn. by rewrite alter_insert_eq.
Qed.

Lemma Logger_handlers_run (key : string) (x : Logger)
    (m : gmap string Logger) (w : World) :
  Logger_handlers key (with_loggers (<[key := x]> m) w)
  = (Ok (l_handlers x), with_loggers (<[key := x]> m) w).
Proof.
  unfold Logger_handlers, gets. cbn. by rewrite lookup_insert_eq.
Qed.

Lemma Logger_addHandler_run (key : string) (h : Handler) (x : Logger)
    (m : gmap string Logger) (w : World) :
  Logger_addHandler key h (with_loggers (<[key := x]> m) w)
  = (Ok tt,
     with_loggers
       (<[key := if existsb (fun h' => Nat.eqb (h_id h') (h_id h)) (l_handlers x)
                 then x
                 else mkLogger (l_level x) (l_handlers x ++ [h])]> m) w).
Proof. unfold Logger_addHandler. by rewrite update_logger_run. Qed.

Lemma walk_none (f : gmap string node) (paths : list string) :
  walk f paths = None
  <-> forallb (fun a => bool_decide (f !! a = Some Dir)) paths = true.
Proof.
  induction paths as [|a l IH]; cbn; [done|].
  destruct (f !! a) as [[]|] eqn:Ha.
  - rewrite bool_decide_eq_false_2 by done. cbn. split; discriminate.
  - rewrite bool_decide_eq_true_2 by done. cbn. exact IH.
  - rewrite bool_decide_eq_false_2 by done. cbn. split; discriminate.
Qed.

Lemma open_append_ok (q : string) (w : World) :
  openable (fs w) q = true ->
  open_append q w = (Ok tt, with_fs (<[system_path q := File]> (fs w)) w).
Proof.
  unfold openable, open_append.
  intros [[[Hn Hr]%andb_prop Ha]%andb_prop Hq]%andb_prop.
  apply negb_true_iff in Hn, Hr. cbn zeta. rewrite Hn, Hr.
  apply walk_none in Ha. rewrite Ha.
  apply bool_decide_eq_true_1 in Hq.
  destruct (fs w !! system_path q) as [[]|] eqn:E; [|done|done].
  by rewrite insert_id, with_fs_same.
Qed.

Lemma open_append_raise (q : string) (w : World) :
  openable (fs w) q = false ->
  open_append q w = (Raise (open_error (fs w) q), w).
Proof.
  unfold openable, open_append, open_error. intros H. cbn zeta.
  destruct (has_nul q); [done|].
  destruct (String.eqb (system_path q) "/"); [done|]. cbn in H.
  destruct (walk (fs w) (ancestors (system_path q))) as [kind|] eqn:Hw; [done|].
  apply walk_none in Hw. rewrite Hw in H. cbn in H.
  apply bool_decide_eq_false_1 in H.
  destruct (fs w !! system_path q) as [[]|]; [|done|]; by destruct H.
Qed.

(** The first half of [setup_logger]: whatever the logger was, it ends
    at DEBUG with the new console handler as its only handler; the rest
    of the body runs from there. *)
Lemma setup_logger_console (name : string) (logfile : option string) (w : World) :
  setup_logger name logfile w
  = ((if truthy_opt logfile then
        fh ← FileHandler (default "" logfile);
        Logger_addHandler (logger_key name)
          (Handler_setFormatter (Formatter log_format)
             (Handler_setLevel Level.DEBUG fh))
      else mret tt);;
     mret (logger_key name))
      (with_loggers
         (<[logger_key name :=
              mkLogger Level.DEBUG [console_handler (next_id w)]]> (loggers w))
         (with_next_id (S (next_id w)) w)).
Proof.
  unfold setup_logger.
  rewrite (bind_ok _ _ _ _ _ (getLogger_run name w)).
  set (key := logger_key name).
  set (l0 := default (fresh_logger key) (loggers w !! key)).
  unfold Logger_setLevel.
  rewrite (bind_ok _ _ _ _ _ (update_logger_run key _ l0 (loggers w) w)).
  rewrite (bind_ok _ _ _ _ _ (Logger_handlers_run key _ (loggers w) w)).
  cbn [l_handlers].
  assert (Hclear :
    (if truthy_list (l_handlers l0) then Logger_set_handlers key [] else mret tt)
      (with_loggers (<[key := mkLogger Level.DEBUG (l_handlers l0)]> (loggers w)) w)
    = (Ok tt, with_loggers (<[key := mkLogger Level.DEBUG []]> (loggers w)) w)).
  { destruct (l_handlers l0) as [|h hs]; cbn [truthy_list].
    - done.
    - unfold Logger_set_handlers. by rewrite update_logger_run. }
  rewrite (bind_ok _ _ _ _ _ Hclear).
  set (w2 := with_loggers (<[key := mkLogger Level.DEBUG []]> (loggers w)) w).
  rewrite (bind_ok _ _ w2 (with_next_id (S (next_id w)) w2)
             (mkHandler (next_id w) Console Level.NOTSET None) eq_refl).
  change (with_next_id (S (next_id w)) w2)
    with (with_loggers (<[key := mkLogger Level.DEBUG []]> (loggers w))
            (with_next_id (S (next_id w)) w)).
  rewrite (bind_ok _ _ _ _ _
             (Logger_addHandler_run key _ _ (loggers w)
                (with_next_id (S (next_id w)) w))).
  reflexivity.
Qed.

Lemma configured_console (w : World) (key : string) :
  with_loggers
    (<[key := mkLogger Level.DEBUG [console_handler (next_id w)]]> (loggers w))
    (with_next_id (S (next_id w)) w)
  = configured w key [console_handler (next_id w)] (fs w).
Proof.
  unfold configured, with_loggers, with_next_id. cbn. f_equal. lia.
Qed.

Lemma setup_logger_no_file (name : string) (logfile : option string) (w : World) :
  truthy_opt logfile = false ->
  setup_logger name logfile w
  = (Ok (logger_key name),
     configured w (logger_key name) [console_handler (next_id w)] (fs w)).
Proof.
  intros H. rewrite setup_logger_console, H, configured_console. reflexivity.
Qed.

Lemma setup_logger_with_file (name path : string) (w : World) :
  PyStr.truthy path = true ->
  openable (fs w) (os_path_abspath (cwd w) path) = true ->
  setup_logger name (Some path) w
  = (Ok (logger_key name),
     configured w (logger_key name)
       [console_handler (next_id w);
        file_handler (S (next_id w)) (os_path_abspath (cwd w) path)]
       (<[system_path (os_path_abspath (cwd w) path) := File]> (fs w))).
Proof.
  intros Ht Ho. rewrite setup_logger_console. cbn [truthy_opt default].
  rewrite Ht. set (key := logger_key name).
  set (q := os_path_abspath (cwd w) path) in *.
  set (w1 := with_loggers _ _).
  assert (Hfh : FileHandler path w1
    = (Ok (mkHandler (S (next_id w)) (LogFile q) Level.NOTSET None),
       with_loggers
         (<[key := mkLogger Level.DEBUG [console_handler (next_id w)]]> (loggers w))
         (with_next_id (S (S (next_id w)))
            (with_fs (<[system_path q := File]> (fs w)) w)))).
  { unfold FileHandler. rewrite (bind_ok _ _ w1 w1 q) by done.
    rewrite (bind_ok _ _ w1 _ tt (open_append_ok q w1 Ho)). reflexivity. }
  assert (Hadd :
    (fh ← FileHandler path;
     Logger_addHandler key
       (Handler_setFormatter (Formatter log_format)
          (Handler_setLevel Level.DEBUG fh))) w1
    = (Ok tt,
       configured w key
         [console_handler (next_id w); file_handler (S (next_id w)) q]
         (<[system_path q := File]> (fs w)))).
  { rewrite (bind_ok _ _ _ _ _ Hfh), Logger_addHandler_run.
    cbn [l_handlers existsb h_id console_handler Handler_setFormatter
         Handler_setLevel orb l_level app].
    replace (Nat.eqb (next_id w) (S (next_id w))) with false
      by (symmetry; apply Nat.eqb_neq; lia).
    f_equal.
    unfold configured, with_loggers, with_next_id, with_fs, file_handler, Formatter.
    cbn. f_equal. lia. }
  by rewrite (bind_ok _ _ _ _ _ Hadd).
Qed.

Lemma setup_logger_open_fails (name path : string) (w : World) :
  PyStr.truthy path = true ->
  openable (fs w) (os_path_abspath (cwd w) path) = false ->
  setup_logger name (Some path) w
  = (Raise (open_error (fs w) (os_path_abspath (cwd w) path)),
     configured w (logger_key name) [console_handler (next_id w)] (fs w)).
Proof.
  intros Ht Ho. rewrite setup_logger_console. cbn [truthy_opt default].
  rewrite Ht, configured_console.
  set (w1 := configured _ _ _ _). set (q := os_path_abspath (cwd w) path) in *.
  pose proof (open_append_raise q w1 Ho) as Hk.
  assert (Hfh : FileHandler path w1
                = (Raise (open_error (fs w) q), w1)).
  { unfold FileHandler. rewrite (bind_ok _ _ w1 w1 q) by done.
    by rewrite (bind_raise _ _ _ _ _ Hk). }
  by rewrite (bind_raise _ _ _ _ _ (bind_raise _ _ _ _ _ Hfh)).
Qed.

(** Whatever the outcome, the logger is left with handlers made by this
    call, of identities below the next fresh one. *)
Lemma setup_logger_leaves (name : string) (logfile : option string) (w : World) :
  exists hs f,
    snd (setup_logger name logfile w) = configured w (logger_key name) hs f
    /\ hs ≠ []
    /\ Forall (fun h => next_id w <= h_id h < next_id w + length hs) hs.
Proof.
  destruct (truthy_opt logfile) eqn:Ht.
  - destruct logfile as [path|]; [|done]. cbn in Ht.
    destruct (openable (fs w) (os_path_abspath (cwd w) path)) eqn:Ho.
    + rewrite (setup_logger_with_file _ _ _ Ht Ho).
      eexists _, _. split; [reflexivity|]. split; [done|].
      repeat constructor; cbn; lia.
    + rewrite (setup_logger_open_fails name _ _ Ht Ho).
      eexists _, _. split; [reflexivity|]. split; [done|].
      repeat constructor; cbn; lia.
  - rewrite (setup_logger_no_file _ _ _ Ht).
    eexists _, _. split; [reflexivity|]. split; [done|].
    repeat constructor; cbn; lia.
Qed.

Lemma handlers_of_configured (w : World) (key : string) (hs : list Handler)
    (f : gmap string node) :
  handlers_of (configured w key hs f) key = hs.
Proof. unfold handlers_of, configured. cbn. by rewrite lookup_insert_eq. Qed.

(** In the model the call returns exactly when its file, if any, can be
    opened. *)
Lemma setup_logger_ok_openable (name : string) (logfile : option string)
    (w : World) :
  is_ok (fst (setup_logger name logfile w)) = logfile_openable logfile w.
Proof.
  unfold logfile_openable. destruct (truthy_opt logfile) eqn:Ht.
  - destruct logfile as [path|]; [|done]. cbn in Ht. cbn [default].
    destruct (openable (fs w) (os_path_abspath (cwd w) path)) eqn:Ho.
    + by rewrite (setup_logger_with_file _ _ _ Ht Ho).
    + by rewrite (setup_logger_open_fails name _ _ Ht Ho).
  - by rewrite (setup_logger_no_file _ _ _ Ht).
Qed.

Lemma returning_openable (name : string) (logfile : option string) (w : World) :
  logfile_openable logfile w = true
  \/ is_ok (fst (setup_logger name logfile w)) = true ->
  logfile_openable logfile w = true.
Proof. rewrite setup_logger_ok_openable. by intros [?|?]. Qed.

Lemma handles_console (n : nat) (hs : list Handler) (level : Z) :
  handles (mkLogger Level.DEBUG hs) (console_handler n) level = true
  <-> (Level.INFO <= level)%Z.
Proof.
  unfold handles, Logger_isEnabledFor, console_handler.
  cbn [l_level h_level]. unfold Level.INFO, Level.DEBUG.
  rewrite andb_true_iff, !Z.leb_le. lia.
Qed.

Lemma handles_file (n : nat) (q : string) (hs : list Handler) (level : Z) :
  handles (mkLogger Level.DEBUG hs) (file_handler n q) level = true
  <-> (Level.DEBUG <= level)%Z.
Proof.
  unfold handles, Logger_isEnabledFor, file_handler.
  cbn [l_level h_level]. unfold Level.DEBUG.
  rewrite andb_true_iff, !Z.leb_le. lia.
Qed.

(** C7: whenever [setup_logger] returns, and it does when the file, if
    one is given, can be opened, the logger it returns is at the DEBUG
    threshold, the lowest of the named severities; it has a console
    handler at INFO and, exactly when a non-empty file path is given, a
    file handler at DEBUG on that file, under the absolute normal form
    of the path; both handlers carry the same format, with the time, the
    severity, the logger name, the line number and the message.  So the
    console gets the records from INFO up and the file those from DEBUG
    up. *)
Theorem setup_logger_configures (name : string) (logfile : option string)
    (w : World) :
  logfile_openable logfile w = true
  \/ is_ok (fst (setup_logger name logfile w)) = true ->
  exists w' lg,
    setup_logger name logfile w = (Ok (logger_key name), w')
    /\ loggers w' !! logger_key name = Some lg
    /\ l_level lg = Level.DEBUG
    /\ Forall (fun level => (Level.DEBUG <= level)%Z) Level.named
    /\ l_handlers lg
       = mkHandler (next_id w) Console Level.INFO (Some log_format)
         :: match logfile with
            | Some (String c p) =>
                [mkHandler (S (next_id w))
                   (LogFile (os_path_abspath (cwd w) (String c p)))
                   Level.DEBUG (Some log_format)]
            | _ => []
            end
    /\ log_format
       = "[%(asctime)s] %(levelname)s %(name)s:%(lineno)d - %(message)s"
    /\ (forall h level, h ∈ l_handlers lg ->
          handles lg h level = true <->
          (match h_target h with
           | Console => Level.INFO
           | LogFile _ => Level.DEBUG
           end <= level)%Z).
Proof.
  intros Ho%returning_openable. unfold logfile_openable in Ho.
  assert (Hlevels : Forall (fun level => (Level.DEBUG <= level)%Z) Level.named)
    by (repeat constructor; by vm_compute).
  destruct logfile as [[|c p]|].
  - rewrite setup_logger_no_file by done.
    eexists _, _. split; [reflexivity|]. cbn. rewrite lookup_insert_eq.
    split_and!; try done.
    intros h level ->%list_elem_of_singleton. apply handles_console.
  - rewrite setup_logger_with_file by done.
    eexists _, _. split; [reflexivity|]. cbn. rewrite lookup_insert_eq.
    split_and!; try done.
    intros h level [->|[->|[]%elem_of_nil]%elem_of_cons]%elem_of_cons.
    + apply handles_console.
    + apply handles_file.
  - rewrite setup_logger_no_file by done.
    eexists _, _. split; [reflexivity|]. cbn. rewrite lookup_insert_eq.
    split_and!; try done.
    intros h level ->%list_elem_of_singleton. apply handles_console.
Qed.

Lemma requested_outputs_nodup (dir : string) (logfile : option string) :
  NoDup (requested_outputs dir logfile).
Proof.
  unfold requested_outputs. destruct logfile as [[|c p]|].
  - apply NoDup_singleton.
  - apply NoDup_cons. split; [|apply NoDup_singleton].
    intros H%list_elem_of_singleton. discriminate.
  - apply NoDup_singleton.
Qed.

(** C6: after two calls with the same name, whenever the second one
    returns, and it does when its file, if any, can be opened, the
    logger has exactly the outputs the second call asks for, each once;
    every handler the first call attached is gone, whether or not the
    first call got as far as returning. *)
Theorem setup_logger_twice (name : string) (first second : option string)
    (w : World) :
  logfile_openable second (snd (setup_logger name first w)) = true
  \/ is_ok (fst (setup_logger name second
                   (snd (setup_logger name first w)))) = true ->
  exists w2,
    setup_logger name second (snd (setup_logger name first w))
    = (Ok (logger_key name), w2)
    /\ output_of <$> handlers_of w2 (logger_key name)
       = requested_outputs (cwd w) second
    /\ NoDup (output_of <$> handlers_of w2 (logger_key name))
    /\ handlers_of (snd (setup_logger name first w)) (logger_key name) ≠ []
    /\ (forall h,
         h ∈ handlers_of (snd (setup_logger name first w)) (logger_key name) ->
         h ∉ handlers_of w2 (logger_key name)).
Proof.
  intros Ho%returning_openable. revert Ho.
  destruct (setup_logger_leaves name first w) as (hs & f & -> & Hne & Hids).
  rewrite handlers_of_configured.
  set (w1 := configured w (logger_key name) hs f). intros Ho.
  unfold logfile_openable in Ho.
  assert (Hold : forall h n, h ∈ hs -> next_id w1 <= n -> h_id h ≠ n).
  { intros h n Hh Hn. rewrite Forall_forall in Hids.
    specialize (Hids h Hh). cbn in Hn. lia. }
  destruct second as [[|c p]|].
  - rewrite setup_logger_no_file by done. eexists. split; [reflexivity|].
    rewrite handlers_of_configured. repeat split; [|done|].
    + apply (requested_outputs_nodup (cwd w) (Some "")).
    + intros h Hh ->%list_elem_of_singleton.
      by apply (Hold _ (next_id w1) Hh).
  - rewrite setup_logger_with_file by done. eexists. split; [reflexivity|].
    rewrite handlers_of_configured. repeat split; [|done|].
    + apply (requested_outputs_nodup (cwd w) (Some (String c p))).
    + intros h Hh [->|[->|[]%elem_of_nil]%elem_of_cons]%elem_of_cons.
      * by apply (Hold _ (next_id w1) Hh).
      * apply (Hold _ (S (next_id w1)) Hh); [lia|done].
  - rewrite setup_logger_no_file by done. eexists. split; [reflexivity|].
    rewrite handlers_of_configured. repeat split; [|done|].
    + apply (requested_outputs_nodup (cwd w) None).
    + intros h Hh ->%list_elem_of_singleton.
      by apply (Hold _ (next_id w1) Hh).
Qed.

(** A log file in a directory that does not exist: the call raises, and
    the logger is left with the console handler alone. *)
Example setup_logger_missing_directory :
  fst (setup_logger "rtr" (Some "logs/run.log") site_world)
  = Raise (OSError FileNotFoundError "/home/site/logs/run.log")
  /\ handlers_of (snd (setup_logger "rtr" (Some "logs/run.log") site_world)) "rtr"
     = [console_handler 0].
Proof. split; vm_compute; reflexivity. Qed.

(** An empty file name counts as no file. *)
Example setup_logger_empty_path :
  setup_logger "rtr" (Some "") site_world = setup_logger "rtr" None site_world.
Proof. vm_compute. reflexivity. Qed.

(** The file is opened under the normal form of its path: a detour in
    the argument does not matter, and a path that comes down to a
    directory is refused. *)
Example setup_logger_path_forms :
  handlers_of (snd (setup_logger "rtr" (Some "./run.log") site_world)) "rtr"
  = [console_handler 0; file_handler 1 "/home/site/run.log"]
  /\ handlers_of (snd (setup_logger "rtr" (Some "nodir/../run.log") site_world))
       "rtr"
     = [console_handler 0; file_handler 1 "/home/site/run.log"]
  /\ fst (setup_logger "rtr" (Some ".") site_world)
     = Raise (OSError IsADirectoryError "/home/site")
  /\ fst (setup_logger "rtr" (Some "logs/")
            (snd (ensure_directories site_world)))
     = Raise (OSError IsADirectoryError "/home/site/logs")
  /\ fst (setup_logger "rtr" (Some "../../..") site_world)
     = Raise (OSError IsADirectoryError "/").
Proof. repeat split; vm_compute; reflexivity. Qed.

(** A NUL character in the normal form of the path is refused by [open]
    with a [ValueError]; one that the normal form drops does no harm. *)
Example setup_logger_nul_path :
  fst (setup_logger "rtr" (Some (String "a" (String "000" "b"))) site_world)
  = Raise (ValueError "embedded null byte")
  /\ handlers_of
       (snd (setup_logger "rtr"
               (Some (String "a" (String "000" "b/../run.log"))) site_world))
       "rtr"
     = [console_handler 0; file_handler 1 "/home/site/run.log"].
Proof. split; vm_compute; reflexivity. Qed.

(** Witnesses for the logger factory. *)

Lemma setup_logger_configures_witness :
  (logfile_openable (Some "./collector.log") site_world = true
   \/ is_ok (fst (setup_logger "rtr" (Some "./collector.log") site_world)) = true)
  /\ exists w' lg,
       setup_logger "rtr" (Some "./collector.log") site_world = (Ok "rtr", w')
       /\ loggers w' !! "rtr" = Some lg
       /\ l_level lg = 10%Z
       /\ l_handlers lg
          = [mkHandler 0 Console 20 (Some log_format);
             mkHandler 1 (LogFile "/home/site/collector.log") 10
               (Some log_format)].
Proof.
  assert (H : logfile_openable (Some "./collector.log") site_world = true
              \/ is_ok (fst (setup_logger "rtr" (Some "./collector.log")
                               site_world)) = true)
    by (left; vm_compute; reflexivity).
  split; [exact H|].
  destruct (setup_logger_configures "rtr" (Some "./collector.log") site_world H)
    as (w' & lg & Hrun & Hlg & Hlevel & _ & Hhs & _).
  exists w', lg. repeat split; assumption.
Defined.

Lemma setup_logger_twice_witness :
  (logfile_openable None
     (snd (setup_logger "rtr" (Some "collector.log") site_world)) = true
   \/ is_ok (fst (setup_logger "rtr" None
                    (snd (setup_logger "rtr" (Some "collector.log")
                            site_world)))) = true)
  /\ exists w2,
       setup_logger "rtr" None
         (snd (setup_logger "rtr" (Some "collector.log") site_world))
       = (Ok "rtr", w2)
       /\ output_of <$> handlers_of w2 "rtr"
          = [(Console, 20%Z, Some log_format)].
Proof.
  split; [left; reflexivity|].
  destruct (setup_logger_twice "rtr" (Some "collector.log") None site_world
              (or_introl eq_refl)) as (w2 & Hrun & Hout & _).
  exists w2. split; assumption.
Defined.

(** ** Further properties of the directory bootstrapper *)

Lemma grows_refl (w : World) : grows w w.
Proof. unfold grows. by auto 10. Qed.

Lemma grows_trans (w1 w2 w3 : World) : grows w1 w2 -> grows w2 w3 -> grows w1 w3.
Proof.
  intros (He1 & Hc1 & Hl1 & Hn1 & Hf1) (He2 & Hc2 & Hl2 & Hn2 & Hf2).
  unfold grows. split_and!; try congruence.
  intros p. destruct (Hf1 p) as [H1|[H1 H1']], (Hf2 p) as [H2|[H2 H2']].
  - left. congruence.
  - right. split; congruence.
  - right. split; congruence.
  - congruence.
Qed.

Lemma grows_insert_dir (w : World) (a : string) :
  fs w !! a ≠ Some File -> grows w (with_fs (<[a := Dir]> (fs w)) w).
Proof.
  intros Ha. unfold grows. cbn. split_and!; try done. intros p.
  destruct (decide (a = p)) as [<-|Hne].
  - rewrite lookup_insert_eq. destruct (fs w !! a) as [[]|]; [done|by left|by right].
  - left. by rewrite lookup_insert_ne.
Qed.

Lemma grows_keeps (w w' : World) (p : string) (n : node) :
  grows w w' -> fs w !! p = Some n -> fs w' !! p = Some n.
Proof.
  intros (_ & _ & _ & _ & Hf) Hp. destruct (Hf p) as [H|[H _]]; congruence.
Qed.

Lemma grows_file_was (w w' : World) (p : string) :
  grows w w' -> fs w' !! p = Some File -> fs w !! p = Some File.
Proof.
  intros (_ & _ & _ & _ & Hf) Hp. destruct (Hf p) as [H|[_ H]]; congruence.
Qed.

Lemma ensure_parent_grows {leaf : string} (a : string) (w w' : World) (r : result unit) :
  ensure_parent leaf a w = (r, w') -> grows w w'.
Proof.
  unfold ensure_parent. destruct (fs w !! a) as [[]|] eqn:Ha; intros [= <- <-].
  - apply grows_refl.
  - apply grows_refl.
  - apply grows_insert_dir. by rewrite Ha.
Qed.

Lemma mkdir_leaf_grows (q : string) (w w' : World) (r : result unit) :
  mkdir_leaf q true w = (r, w') -> grows w w'.
Proof.
  unfold mkdir_leaf. destruct (fs w !! q) as [[]|] eqn:Hq; intros [= <- <-].
  - apply grows_refl.
  - apply grows_refl.
  - apply grows_insert_dir. by rewrite Hq.
Qed.

Lemma bind_cases {A B : Type} (m : M A) (k : A -> M B) (w : World) :
  (m ≫= k) w
  = match m w with
    | (Ok a, w1) => k a w1
    | (Raise e, w1) => (Raise e, w1)
    end.
Proof. reflexivity. Qed.

Lemma for_each_grows {leaf : string} (paths : list string) (w w' : World) (r : result unit) :
  for_each (ensure_parent leaf) paths w = (r, w') -> grows w w'.
Proof.
  revert w. induction paths as [|a l IH]; intros w.
  - intros [= <- <-]. apply grows_refl.
  - cbn [for_each]. rewrite bind_cases.
    destruct (ensure_parent leaf a w) as [[[]|e] w1] eqn:Ha.
    + intros Hl. eapply grows_trans; [by eapply ensure_parent_grows|by apply IH].
    + intros [= <- <-]. by eapply ensure_parent_grows.
Qed.

(** [os.makedirs], laid out by its two stages. *)
Lemma makedirs_stages (name : string) (exist_ok : bool) (w : World) :
  makedirs name exist_ok w
  = match for_each (ensure_parent (join (cwd w) name)) (ancestors (join (cwd w) name)) w with
    | (Ok _, w1) => mkdir_leaf (join (cwd w) name) exist_ok w1
    | (Raise e, w1) => (Raise e, w1)
    end.
Proof. reflexivity. Qed.

Lemma makedirs_grows (name : string) (w w' : World) (r : result unit) :
  makedirs name true w = (r, w') -> grows w w'.
Proof.
  rewrite makedirs_stages.
  destruct (for_each _ _ w) as [[[]|e] w1] eqn:Hup.
  - intros Hleaf. eapply grows_trans; [by eapply for_each_grows|].
    by eapply mkdir_leaf_grows.
  - intros [= <- <-]. by eapply for_each_grows.
Qed.

Lemma ensure_directories_grows (w : World) :
  grows w (snd (ensure_directories w)).
Proof.
  rewrite ensure_directories_run.
  destruct (makedirs _ true w) as [[[]|e] w1] eqn:H1.
  - assert (G1 := makedirs_grows _ _ _ _ H1).
    destruct (makedirs _ true w1) as [[[]|e] w2] eqn:H2;
      assert (G2 := makedirs_grows _ _ _ _ H2); cbn;
      by eapply grows_trans.
  - by eapply makedirs_grows.
Qed.

(** X1: whatever its outcome, [ensure_directories] leaves the
    environment, the working directory and the loggers alone, keeps
    every file and directory that was there, and adds nothing but
    directories. *)
Theorem ensure_directories_only_adds_directories (w : World) :
  environ (snd (ensure_directories w)) = environ w
  /\ cwd (snd (ensure_directories w)) = cwd w
  /\ loggers (snd (ensure_directories w)) = loggers w
  /\ (forall p n, fs w !! p = Some n ->
        fs (snd (ensure_directories w)) !! p = Some n)
  /\ (forall p, fs w !! p = None ->
        fs (snd (ensure_directories w)) !! p = None
        \/ fs (snd (ensure_directories w)) !! p = Some Dir).
Proof.
  pose proof (ensure_directories_grows w) as G.
  destruct G as (He & Hc & Hl & _ & Hf). split_and!; try done.
  - intros p n Hp. destruct (Hf p) as [H|[H _]]; congruence.
  - intros p Hp. destruct (Hf p) as [H|[_ H]]; [left; congruence | by right].
Qed.


Lemma for_each_raise {leaf : string} (paths : list string) (w w' : World) (e : exn) :
  for_each (ensure_parent leaf) paths w = (Raise e, w') ->
  exists kind path, e = OSError kind path.
Proof.
  revert w. induction paths as [|a l IH]; intros w; [discriminate|].
  cbn [for_each]. rewrite bind_cases.
  destruct (ensure_parent leaf a w) as [[[]|e1] w1] eqn:Ha.
  - apply IH.
  - intros [= <- <-]. unfold ensure_parent in Ha.
    destruct (fs w !! a) as [[]|]; [|done|done].
    injection Ha as <- <-. by eexists _, _.
Qed.

Lemma makedirs_raise (name : string) (w w' : World) (e : exn) :
  makedirs name true w = (Raise e, w') ->
  exists kind path, e = OSError kind path.
Proof.
  rewrite makedirs_stages.
  destruct (for_each _ _ w) as [[[]|e1] w1] eqn:Hup.
  - unfold mkdir_leaf. destruct (fs w1 !! _) as [[]|]; [|done|done].
    intros [= <- <-]. by eexists _, _.
  - intros [= <- <-]. by eapply for_each_raise.
Qed.

(** X2: a regular file at one of the two directories, or at a path above
    them, makes [ensure_directories] raise an operating system error: it
    does not return a pair. *)
Theorem ensure_directories_blocked_raises (w : World) (a : string) :
  a ∈ chain (logs_path w) \/ a ∈ chain (result_path w) ->
  fs w !! a = Some File ->
  exists kind path, fst (ensure_directories w) = Raise (OSError kind path).
Proof.
  intros Hin Hfile.
  assert (Hc : dirs_creatable w = false).
  { destruct (dirs_creatable w) eqn:Hc; [|done]. unfold dirs_creatable in Hc.
    apply andb_prop in Hc as [H1 H2].
    pose proof (proj1 (creatable_spec _ _) H1) as N1.
    pose proof (proj1 (creatable_spec _ _) H2) as N2.
    destruct Hin as [Hin|Hin]; [by destruct (N1 a Hin)|by destruct (N2 a Hin)]. }
  destruct (fst (ensure_directories w)) as [dirs|e] eqn:Hrun.
  - assert (Hok : is_ok (fst (ensure_directories w)) = true) by by rewrite Hrun.
    apply ensure_directories_ok_iff in Hok. congruence.
  - revert Hrun. rewrite ensure_directories_run.
    destruct (makedirs _ true w) as [[[]|e1] w1] eqn:H1.
    + destruct (makedirs _ true w1) as [[[]|e2] w2] eqn:H2; [discriminate|].
      intros [= <-]. destruct (makedirs_raise _ _ _ _ H2) as (k & q & ->).
      by exists k, q.
    + intros [= <-]. destruct (makedirs_raise _ _ _ _ H1) as (k & q & ->).
      by exists k, q.
Qed.

Lemma ensure_parent_again {leaf : string} (a : string) (w w' : World) (r : result unit) :
  ensure_parent leaf a w = (r, w') -> ensure_parent leaf a w' = (r, w').
Proof.
  unfold ensure_parent. destruct (fs w !! a) as [[]|] eqn:Ha; intros [= <- <-].
  - by rewrite Ha.
  - by rewrite Ha.
  - cbn. by rewrite lookup_insert_eq.
Qed.

Lemma mkdir_leaf_again (q : string) (w w' : World) (r : result unit) :
  mkdir_leaf q true w = (r, w') -> mkdir_leaf q true w' = (r, w').
Proof.
  unfold mkdir_leaf. destruct (fs w !! q) as [[]|] eqn:Hq; intros [= <- <-].
  - by rewrite Hq.
  - by rewrite Hq.
  - cbn. by rewrite lookup_insert_eq.
Qed.

Lemma ensure_parent_made {leaf : string} (a : string) (w w' : World) :
  ensure_parent leaf a w = (Ok tt, w') -> fs w' !! a = Some Dir.
Proof.
  unfold ensure_parent. destruct (fs w !! a) as [[]|] eqn:Ha; intros [= <-].
  - done.
  - cbn. by rewrite lookup_insert_eq.
Qed.

Lemma ensure_parent_present {leaf : string} (a : string) (w : World) :
  fs w !! a = Some Dir -> ensure_parent leaf a w = (Ok tt, w).
Proof. intros H. unfold ensure_parent. by rewrite H. Qed.

Lemma for_each_present {leaf : string} (paths : list string) (w : World) :
  (forall a, a ∈ paths -> fs w !! a = Some Dir) ->
  for_each (ensure_parent leaf) paths w = (Ok tt, w).
Proof.
  induction paths as [|a l IH]; intros H; [done|].
  cbn [for_each]. rewrite bind_cases, ensure_parent_present.
  - apply IH. intros b Hb. apply H. by right.
  - apply H. by left.
Qed.

Lemma for_each_made {leaf : string} (paths : list string) (w w' : World) :
  for_each (ensure_parent leaf) paths w = (Ok tt, w') ->
  forall a, a ∈ paths -> fs w' !! a = Some Dir.
Proof.
  intros H a Ha.
  pose proof (for_each_ensure_parent_inv _ _ _ H) as Hnf.
  rewrite (for_each_ensure_parent_ok _ _ Hnf) in H. injection H as <-.
  cbn. rewrite add_dirs_lookup. by rewrite bool_decide_eq_true_2.
Qed.

Lemma for_each_again {leaf : string} (paths : list string) (w w' : World) (r : result unit) :
  for_each (ensure_parent leaf) paths w = (r, w') ->
  for_each (ensure_parent leaf) paths w' = (r, w').
Proof.
  destruct r as [[]|e].
  - intros H. apply for_each_present. by eapply for_each_made.
  - revert w. induction paths as [|a l IH]; intros w; [discriminate|].
    cbn [for_each]. rewrite !bind_cases.
    destruct (ensure_parent leaf a w) as [[[]|e1] w1] eqn:Ha.
    + intros Hl. rewrite ensure_parent_present; [exact (IH _ Hl)|].
      apply (grows_keeps w1 w' a Dir (for_each_grows _ _ _ _ Hl)).
      exact (ensure_parent_made _ _ _ Ha).
    + intros [= <- <-]. by rewrite (ensure_parent_again _ _ _ _ Ha).
Qed.

Lemma makedirs_again (name : string) (w w' : World) (r : result unit) :
  makedirs name true w = (r, w') -> makedirs name true w' = (r, w').
Proof.
  intros H. pose proof (makedirs_grows _ _ _ _ H) as G.
  destruct G as (_ & Hc & _). revert H. rewrite !makedirs_stages, Hc.
  destruct (for_each _ _ w) as [[[]|e1] w1] eqn:Hup.
  - intros Hleaf. rewrite for_each_present.
    + exact (mkdir_leaf_again _ _ _ _ Hleaf).
    + intros a Ha.
      apply (grows_keeps w1 w' a Dir (mkdir_leaf_grows _ _ _ _ Hleaf)).
      by apply (for_each_made _ _ _ Hup).
  - intros [= <- <-]. by rewrite (for_each_again _ _ _ _ Hup).
Qed.

Lemma makedirs_made (name : string) (w w' : World) :
  makedirs name true w = (Ok tt, w') ->
  forall a, a ∈ chain (join (cwd w) name) -> fs w' !! a = Some Dir.
Proof.
  intros H a Ha.
  pose proof (makedirs_inv _ _ _ H) as Hc.
  rewrite (makedirs_ok _ _ Hc) in H. injection H as <-.
  cbn. rewrite add_dirs_lookup. by rewrite bool_decide_eq_true_2.
Qed.

Lemma makedirs_present (name : string) (w : World) :
  (forall a, a ∈ chain (join (cwd w) name) -> fs w !! a = Some Dir) ->
  makedirs name true w = (Ok tt, w).
Proof.
  intros H. rewrite makedirs_ok.
  - by rewrite (add_dirs_present _ _ H), with_fs_same.
  - apply creatable_spec. intros a Ha. by rewrite (H a Ha).
Qed.

(** X3: a second call of [ensure_directories], on the world the first one
    left, has the outcome of the first, the same pair or the same
    exception, and changes nothing. *)
Theorem ensure_directories_again (w w' : World) (r : result (string * string)) :
  ensure_directories w = (r, w') -> ensure_directories w' = (r, w').
Proof.
  intros H. pose proof (ensure_directories_grows w) as G. rewrite H in G.
  cbn in G. destruct G as (He & Hc & _). revert H.
  rewrite !ensure_directories_run.
  assert (Hw : wanted_dirs w' = wanted_dirs w)
    by (unfold wanted_dirs; by rewrite He, Hc).
  rewrite Hw.
  destruct (makedirs _ true w) as [[[]|e1] w1] eqn:H1.
  - destruct (makedirs (snd _) true w1) as [[[]|e2] w2] eqn:H2;
      intros [= <- <-];
      pose proof (makedirs_grows _ _ _ _ H1) as (_ & Hc1 & _);
      (rewrite (makedirs_present _ w2);
       [ by rewrite (makedirs_again _ _ _ _ H2)
       | intros a Ha;
         apply (grows_keeps w1 w2 a Dir (makedirs_grows _ _ _ _ H2));
         apply (makedirs_made _ _ _ H1); congruence ]).
  - intros [= <- <-]. by rewrite (makedirs_again _ _ _ _ H1).
Qed.

(** *** Paths *)

Lemma append_nil_l (s : string) : "" +:+ s = s.
Proof. reflexivity. Qed.

Lemma append_cons (c : ascii) (a b : string) :
  String c a +:+ b = String c (a +:+ b).
Proof. reflexivity. Qed.

Lemma append_nil_r (s : string) : s +:+ "" = s.
Proof.
  induction s as [|c s IH]; [done|]. by rewrite append_cons, IH.
Qed.

Lemma append_assoc (a b c : string) : (a +:+ b) +:+ c = a +:+ (b +:+ c).
Proof.
  induction a as [|x a IH]; [done|]. by rewrite !append_cons, IH.
Qed.

Lemma join_relative (a b : string) :
  startswith_sep b = false -> join a b = join_prefix a +:+ b.
Proof.
  intros Hb. unfold join, join_prefix. rewrite Hb.
  destruct (negb (PyStr.truthy a) || endswith_sep a); [done|].
  by rewrite append_assoc.
Qed.

Lemma join_absolute (a b : string) : startswith_sep b = true -> join a b = b.
Proof. intros Hb. unfold join. by rewrite Hb. Qed.

Lemma startswith_sep_app (a b : string) :
  startswith_sep (a +:+ b)
  = if PyStr.truthy a then startswith_sep a else startswith_sep b.
Proof. by destruct a. Qed.


Lemma truthy_app_r (a b : string) :
  PyStr.truthy b = true -> PyStr.truthy (a +:+ b) = true.
Proof. intros Hb. by destruct a. Qed.


Lemma ancestors_from_app (x pre y : string) :
  ancestors_from pre (x +:+ y)
  = ancestors_from pre x ++ ancestors_from (pre +:+ x) y.
Proof.
  revert pre. induction x as [|c x IH]; intros pre.
  - by rewrite append_nil_l, append_nil_r.
  - rewrite append_cons. cbn [ancestors_from].
    rewrite IH, append_assoc, append_cons, append_nil_l.
    by rewrite <- app_assoc.
Qed.



(** Both directories of [ensure_directories] are one prefix followed by
    their own name. *)
Lemma wanted_paths_prefix (w : World) :
  exists Q, logs_path w = Q +:+ "logs" /\ result_path w = Q +:+ "rtr-result".
Proof.
  unfold logs_path, result_path, wanted_dirs. cbn [fst snd].
  set (base := match environ w !! "WEBSITE_INSTANCE_ID" with
               | Some _ => "/tmp" | None => cwd w end).
  rewrite !(join_relative base) by done.
  destruct (join_prefix base) as [|c P] eqn:HP.
  - rewrite !append_nil_l, !join_relative by done. by eexists.
  - destruct (startswith_sep (String c P)) eqn:Hs.
    + rewrite !join_absolute by (by rewrite startswith_sep_app). by eexists.
    + rewrite !join_relative by (by rewrite startswith_sep_app).
      rewrite <- !append_assoc. by eexists.
Qed.

Lemma wanted_paths_ancestors (w : World) :
  ancestors (logs_path w) = ancestors (result_path w).
Proof.
  destruct (wanted_paths_prefix w) as (Q & -> & ->).
  unfold ancestors. rewrite !ancestors_from_app. by f_equal.
Qed.


(** X5: when only the result directory is blocked by a regular file, the
    call raises FileExistsError for it after the logs directory was
    made: what was created stays. *)
Theorem ensure_directories_no_rollback (w : World) :
  creatable (fs w) (logs_path w) = true ->
  fs w !! result_path w = Some File ->
  fst (ensure_directories w)
  = Raise (OSError FileExistsError (result_path w))
  /\ (forall a, a ∈ chain (logs_path w) ->
       fs (snd (ensure_directories w)) !! a = Some Dir).
Proof.
  intros Hc Hfile. pose proof (proj1 (creatable_spec _ _) Hc) as Hnf.
  rewrite ensure_directories_run. fold (logs_path w).
  unfold logs_path in Hc. rewrite (makedirs_ok _ _ Hc). fold (logs_path w).
  set (w1 := with_fs _ w).
  assert (Hdirs : forall a, a ∈ chain (logs_path w) -> fs w1 !! a = Some Dir).
  { intros a Ha. cbn. rewrite add_dirs_lookup. by rewrite bool_decide_eq_true_2. }
  assert (Hnot : result_path w ∉ chain (logs_path w)).
  { intros Hin. by apply (Hnf _ Hin). }
  rewrite makedirs_stages.
  change (join (cwd w1) (snd (wanted_dirs w))) with (result_path w).
  rewrite for_each_present.
  - unfold mkdir_leaf.
    replace (fs w1 !! result_path w) with (Some File).
    + split; [done|]. exact Hdirs.
    + cbn. rewrite add_dirs_lookup. by rewrite bool_decide_eq_false_2.
  - intros a Ha. apply Hdirs. rewrite <- wanted_paths_ancestors in Ha.
    unfold chain. apply elem_of_app. by left.
Qed.


(** *** Normal forms *)



















(** ** The bootstrapper and the logger factory together *)



(** ** Further properties of the logger factory *)


(** The world a call leaves, whatever its outcome. *)
Lemma setup_logger_world (name : string) (logfile : option string) (w : World) :
  exists hs f,
    snd (setup_logger name logfile w) = configured w (logger_key name) hs f
    /\ (f = fs w
        \/ (f = <[system_path (os_path_abspath (cwd w) (default "" logfile))
                  := File]> (fs w)
            /\ fs w !! system_path (os_path_abspath (cwd w) (default "" logfile))
               ≠ Some Dir)).
Proof.
  destruct (truthy_opt logfile) eqn:Ht.
  - destruct logfile as [path|]; [|done]. cbn in Ht.
    destruct (openable (fs w) (os_path_abspath (cwd w) path)) eqn:Ho.
    + rewrite (setup_logger_with_file _ _ _ Ht Ho).
      eexists _, _. split; [reflexivity|]. right. split; [done|].
      apply andb_prop in Ho as [_ Ho]. by apply bool_decide_eq_true_1 in Ho.
    + rewrite (setup_logger_open_fails name _ _ Ht Ho).
      eexists _, _. split; [reflexivity|]. by left.
  - rewrite (setup_logger_no_file _ _ _ Ht).
    eexists _, _. split; [reflexivity|]. by left.
Qed.

(** X9: whatever its outcome, [setup_logger] changes the level and the
    handlers of no logger but the one it was asked for, leaves the
    environment and the working directory alone, keeps every file and
    directory, and touches the file system at most at the log file, under
    the normal form of its path. *)
Theorem setup_logger_touches_one_logger (name : string)
    (logfile : option string) (w : World) :
  environ (snd (setup_logger name logfile w)) = environ w
  /\ cwd (snd (setup_logger name logfile w)) = cwd w
  /\ (forall other, other ≠ logger_key name ->
        loggers (snd (setup_logger name logfile w)) !! other
        = loggers w !! other)
  /\ (forall p n, fs w !! p = Some n ->
        fs (snd (setup_logger name logfile w)) !! p = Some n)
  /\ (forall p,
        p ≠ system_path (os_path_abspath (cwd w) (default "" logfile)) ->
        fs (snd (setup_logger name logfile w)) !! p = fs w !! p).
Proof.
  destruct (setup_logger_world name logfile w) as (hs & f & -> & Hf).
  cbn. split_and!; try done.
  - intros other Hne. by rewrite lookup_insert_ne.
  - intros p n Hp. destruct Hf as [->|[-> Hnd]]; [done|].
    destruct (decide (system_path (os_path_abspath (cwd w) (default "" logfile))
                      = p)) as [<-|Hne].
    + rewrite lookup_insert_eq. destruct n; [done|]. by destruct Hnd.
    + by rewrite lookup_insert_ne.
  - intros p Hne. destruct Hf as [->|[-> _]]; [done|].
    by rewrite lookup_insert_ne.
Qed.

(** ** Further properties of the environment loader *)

Section GetEnvConfigMore.

Variable load_dotenv : World -> gmap string string.

(** X11: [get_env_config] changes nothing but the environment, and that
    only when a [.env] file exists in the working directory: then the
    environment is the one [load_dotenv] leaves, even if the call
    raises; otherwise the world is as it was and [load_dotenv] has no
    say in the result. *)
Theorem get_env_config_effects (w : World) :
  cwd (snd (get_env_config load_dotenv w)) = cwd w
  /\ fs (snd (get_env_config load_dotenv w)) = fs w
  /\ loggers (snd (get_env_config load_dotenv w)) = loggers w
  /\ (is_Some (fs w !! join (cwd w) ".env") ->
      environ (snd (get_env_config load_dotenv w)) = load_dotenv w)
  /\ (fs w !! join (cwd w) ".env" = None ->
      snd (get_env_config load_dotenv w) = w
      /\ forall other, get_env_config other w = get_env_config load_dotenv w).
Proof.
  assert (Hsnd : forall ld, snd (get_env_config ld w) = loaded ld w).
  { intros ld. rewrite get_env_config_run. cbn zeta.
    by destruct (truthy_opt _). }
  rewrite Hsnd. unfold loaded. split_and!.
  - by destruct (bool_decide _).
  - by destruct (bool_decide _).
  - by destruct (bool_decide _).
  - intros H. by rewrite bool_decide_eq_true_2.
  - intros H. split.
    + rewrite bool_decide_eq_false_2; [done|]. rewrite H. by intros [? ?].
    + intros other. rewrite !get_env_config_run. unfold loaded.
      rewrite bool_decide_eq_false_2; [done|]. rewrite H. by intros [? ?].
Qed.

Lemma digit_char_spec (d : nat) :
  d < 10 ->
  PyStr.is_digit (digit_char d) = true
  /\ PyStr.digit_val (digit_char d) = Z.of_nat d
  /\ PyStr.int_space (digit_char d) = false
  /\ digit_char d ≠ "+"%char /\ digit_char d ≠ "-"%char.
Proof.
  intros H. do 10 (destruct d as [|d]; [by vm_compute|]). lia.
Qed.

Lemma lstrip_kept (drop : ascii -> bool) (c : ascii) (s : string) :
  drop c = false -> PyStr.lstrip_with drop (String c s) = String c s.
Proof. intros H. cbn. by rewrite H. Qed.

Lemma rstrip_kept (drop : ascii -> bool) (s : string) :
  Forall (fun c => drop c = false) (list_ascii_of_string s) ->
  PyStr.rstrip_with drop s = s.
Proof.
  induction s as [|c s IH]; [done|]. cbn [list_ascii_of_string].
  intros [Hc H]%Forall_cons. rewrite rstrip_cons, (IH H), Hc. by destruct s.
Qed.

Lemma digits_string_cons (d : nat) (ds : list nat) :
  digits_string (d :: ds) = String (digit_char d) (digits_string ds).
Proof. reflexivity. Qed.

Lemma digits_no_space (ds : list nat) :
  Forall (fun d => d < 10) ds ->
  Forall (fun c => PyStr.int_space c = false)
         (list_ascii_of_string (digits_string ds)).
Proof.
  induction 1 as [|d ds Hd _ IH]; [constructor|].
  rewrite digits_string_cons. cbn [list_ascii_of_string].
  constructor; [|done]. by apply digit_char_spec.
Qed.

Lemma count_digits_decimal (ds : list nat) :
  Forall (fun d => d < 10) ds ->
  PyStr.count_digits (digits_string ds) = N.of_nat (length ds).
Proof.
  induction 1 as [|d ds Hd _ IH]; [done|].
  rewrite digits_string_cons. cbn [PyStr.count_digits length].
  destruct (digit_char_spec d Hd) as (-> & _). rewrite IH. lia.
Qed.

Lemma parse_digits_decimal (ds : list nat) (acc : Z) :
  Forall (fun d => d < 10) ds ->
  PyStr.parse_digits acc false (digits_string ds)
  = Some (foldl (fun a d => a * 10 + Z.of_nat d)%Z acc ds).
Proof.
  intros H. revert acc. induction H as [|d ds Hd _ IH]; intros acc; [done|].
  rewrite digits_string_cons. cbn [PyStr.parse_digits foldl].
  destruct (digit_char_spec d Hd) as (-> & -> & _). apply IH.
Qed.

Lemma parse_unsigned_decimal (ds : list nat) :
  ds ≠ [] -> Forall (fun d => d < 10) ds -> length ds <= 4300 ->
  PyStr.parse_unsigned (digits_string ds) = Some (decimal_value ds).
Proof.
  intros Hne H Hlen. unfold PyStr.parse_unsigned.
  rewrite (count_digits_decimal ds H).
  replace (PyStr.max_str_digits <? N.of_nat (length ds))%N with false.
  - destruct H as [|d ds Hd H]; [done|]. rewrite digits_string_cons.
    destruct (digit_char_spec d Hd) as (-> & -> & _).
    by rewrite (parse_digits_decimal ds _ H).
  - symmetry. apply N.ltb_ge. unfold PyStr.max_str_digits. lia.
Qed.

(** [int] on a decimal literal, bare or with a minus sign. *)
Lemma int_decimal (ds : list nat) :
  ds ≠ [] -> Forall (fun d => d < 10) ds -> length ds <= 4300 ->
  PyStr.int (digits_string ds) = Some (decimal_value ds)
  /\ PyStr.int ("-" +:+ digits_string ds) = Some (- decimal_value ds)%Z.
Proof.
  intros Hne H Hlen.
  pose proof (parse_unsigned_decimal ds Hne H Hlen) as Hp.
  pose proof (digits_no_space ds H) as Hns.
  unfold PyStr.int, PyStr.strip_with. split.
  - destruct H as [|d ds Hd H]; [done|].
    rewrite digits_string_cons in *.
    destruct (digit_char_spec d Hd) as (_ & _ & Hsp & Hplus & Hminus).
    rewrite (lstrip_kept _ _ _ Hsp), (rstrip_kept _ _ Hns).
    destruct (digit_char d) as [[] [] [] [] [] [] [] []]; try done.
  - rewrite append_cons, append_nil_l, lstrip_kept by done.
    rewrite rstrip_kept; [by rewrite Hp|].
    cbn [list_ascii_of_string]. by constructor.
Qed.

(** X12: a MAX_RETRIES or RETRY_DELAY that is a decimal literal of at most
    4300 digits, bare or with a minus sign, is taken at its value: the
    loader checks no range, so zero and negative counts come through. *)
Theorem get_env_config_reads_decimal (w : World) (value : string)
    (ds : list nat) :
  environ (loaded load_dotenv w) !! "SCRIPT_FILE_NAMES" = Some value ->
  value ≠ "" ->
  ds ≠ [] -> Forall (fun d => d < 10) ds -> length ds <= 4300 ->
  exists cfg, fst (get_env_config load_dotenv w) = Ok cfg
    /\ (environ (loaded load_dotenv w) !! "MAX_RETRIES"
        = Some (digits_string ds) -> max_retries cfg = decimal_value ds)
    /\ (environ (loaded load_dotenv w) !! "MAX_RETRIES"
        = Some ("-" +:+ digits_string ds) ->
        max_retries cfg = (- decimal_value ds)%Z)
    /\ (environ (loaded load_dotenv w) !! "RETRY_DELAY"
        = Some (digits_string ds) -> retry_delay cfg = decimal_value ds)
    /\ (environ (loaded load_dotenv w) !! "RETRY_DELAY"
        = Some ("-" +:+ digits_string ds) ->
        retry_delay cfg = (- decimal_value ds)%Z).
Proof.
  intros Hv Hne Hds Hd Hlen.
  destruct (get_env_config_ok load_dotenv w value Hv Hne)
    as (cfg & Hrun & _ & _ & Hm & Hr).
  destruct (int_decimal ds Hds Hd Hlen) as [Hpos Hneg].
  exists cfg. rewrite Hrun, Hm, Hr. unfold int_or.
  split_and!; [done| | | |]; intros ->; cbn [default id];
    by rewrite ?Hpos, ?Hneg.
Qed.

Lemma isspace_lower_char (c : ascii) :
  PyStr.isspace (PyStr.lower_char c) = PyStr.isspace c.
Proof. destruct c as [[] [] [] [] [] [] [] []]; by vm_compute. Qed.

Lemma has_space_lower (s : string) : has_space (PyStr.lower s) = has_space s.
Proof.
  unfold has_space. induction s as [|c s IH]; [done|].
  cbn [PyStr.lower list_ascii_of_string existsb].
  by rewrite isspace_lower_char, IH.
Qed.

(** X14: UPLOAD_TO_BLOODHOUND is compared as it is, not trimmed: a value
    with a white space character anywhere in it turns the flag off. *)
Theorem get_env_config_upload_flag_untrimmed (w : World) (value flag : string) :
  environ (loaded load_dotenv w) !! "SCRIPT_FILE_NAMES" = Some value ->
  value ≠ "" ->
  environ (loaded load_dotenv w) !! "UPLOAD_TO_BLOODHOUND" = Some flag ->
  has_space flag = true ->
  exists cfg, fst (get_env_config load_dotenv w) = Ok cfg
    /\ upload_to_bh cfg = false.
Proof.
  intros Hv Hne Hflag Hsp.
  destruct (get_env_config_ok load_dotenv w value Hv Hne)
    as (cfg & Hrun & _ & Hu & _).
  exists cfg. rewrite Hrun, Hu, Hflag. split; [done|]. cbn [default id].
  apply bool_decide_eq_false_2. rewrite <- has_space_lower in Hsp.
  intros Hin. repeat (apply elem_of_cons in Hin as [Heq|Hin];
                      [by rewrite Heq in Hsp|]).
  by apply elem_of_nil in Hin.
Qed.

Lemma lstrip_chars (drop : ascii -> bool) (s : string) (c : ascii) :
  c ∈ list_ascii_of_string (PyStr.lstrip_with drop s) ->
  c ∈ list_ascii_of_string s.
Proof.
  induction s as [|x s IH]; [done|]. cbn [PyStr.lstrip_with].
  destruct (drop x); [|done]. intros H. cbn. right. by apply IH.
Qed.

Lemma rstrip_chars (drop : ascii -> bool) (s : string) (c : ascii) :
  c ∈ list_ascii_of_string (PyStr.rstrip_with drop s) ->
  c ∈ list_ascii_of_string s.
Proof.
  induction s as [|x s IH]; [done|]. rewrite rstrip_cons.
  destruct (PyStr.rstrip_with drop s) as [|y r] eqn:Hr.
  - destruct (drop x); cbn; [by intros ?%elem_of_nil|].
    intros [->|[]%elem_of_nil]%elem_of_cons. by left.
  - cbn [list_ascii_of_string] in *.
    intros [->|H]%elem_of_cons; [by left|]. right. by apply IH.
Qed.

Lemma strip_chars (s : string) (c : ascii) :
  c ∈ list_ascii_of_string (PyStr.strip s) -> c ∈ list_ascii_of_string s.
Proof.
  unfold PyStr.strip, PyStr.strip_with.
  intros H%rstrip_chars. by apply lstrip_chars in H.
Qed.

Lemma split_chars (sep : ascii) (s piece : string) (c : ascii) :
  piece ∈ PyStr.split sep s -> c ∈ list_ascii_of_string piece ->
  c ∈ list_ascii_of_string s.
Proof.
  revert piece. induction s as [|x s IH]; intros piece; cbn [PyStr.split].
  - by intros ->%list_elem_of_singleton.
  - destruct (Ascii.eqb x sep).
    + intros [->|H]%elem_of_cons Hc; [by apply elem_of_nil in Hc|].
      cbn. right. by eapply IH.
    + destruct (PyStr.split sep s) as [|first rest] eqn:Hs.
      * intros ->%list_elem_of_singleton Hc. cbn in *.
        apply elem_of_cons in Hc as [->|[]%elem_of_nil]. by left.
      * intros [->|H]%elem_of_cons Hc; cbn in *.
        -- apply elem_of_cons in Hc as [->|Hc]; [by left|].
           right. apply (IH first); [by left|done].
        -- right. apply (IH piece); [by right|done].
Qed.

Lemma split_length (sep : ascii) (s : string) :
  length (PyStr.split sep s)
  = S (length (filter (fun c => c = sep) (list_ascii_of_string s))).
Proof.
  induction s as [|x s IH]; [done|]. cbn [PyStr.split list_ascii_of_string].
  rewrite filter_cons. destruct (Ascii.eqb x sep) eqn:Hx.
  - apply Ascii.eqb_eq in Hx. rewrite decide_True by done. cbn. by rewrite IH.
  - apply Ascii.eqb_neq in Hx. rewrite decide_False by done.
    rewrite <- IH. by destruct (PyStr.split sep s).
Qed.

(** X15: no script name holds a comma, every character of a name is a
    character of the variable, and there is at most one name more than
    there are commas in it. *)
Theorem get_env_config_names_clean (w : World) (value : string) :
  environ (loaded load_dotenv w) !! "SCRIPT_FILE_NAMES" = Some value ->
  value ≠ "" ->
  exists cfg, fst (get_env_config load_dotenv w) = Ok cfg
    /\ Forall (fun n => (","%char ∉ list_ascii_of_string n)
                       /\ (forall c, c ∈ list_ascii_of_string n ->
                                     c ∈ list_ascii_of_string value))
              (script_names cfg)
    /\ length (script_names cfg) <= S (commas value).
Proof.
  intros Hv Hne.
  destruct (get_env_config_ok load_dotenv w value Hv Hne)
    as (cfg & Hrun & Hs & _).
  exists cfg. rewrite Hrun, Hs, parse_script_names_spec.
  unfold split_trim_discard. split; [done|]. split.
  - apply Forall_forall. intros n [_ Hin]%list_elem_of_filter.
    apply list_elem_of_fmap in Hin as (piece & -> & Hpiece). split.
    + intros Hc%strip_chars.
      pose proof (split_pieces_no_sep "," value) as Hno.
      rewrite Forall_forall in Hno. by apply (Hno piece Hpiece).
    + intros c Hc%strip_chars. by eapply split_chars.
  - unfold commas. rewrite <- split_length.
    etrans; [apply length_filter|]. by rewrite length_fmap.
Qed.

End GetEnvConfigMore.

(** ** Further properties: white space around the integers *)

Section Padding.

Variable drop : ascii -> bool.

Lemma lstrip_app_dropped (l s : string) :
  Forall (fun c => drop c = true) (list_ascii_of_string l) ->
  PyStr.lstrip_with drop (l +:+ s) = PyStr.lstrip_with drop s.
Proof.
  induction l as [|c l IH]; [done|]. cbn [list_ascii_of_string].
  intros [Hc H]%Forall_cons. rewrite append_cons. cbn [PyStr.lstrip_with].
  rewrite Hc. by apply IH.
Qed.

Lemma rstrip_all_dropped (r : string) :
  Forall (fun c => drop c = true) (list_ascii_of_string r) ->
  PyStr.rstrip_with drop r = "".
Proof.
  induction r as [|c r IH]; [done|]. cbn [list_ascii_of_string].
  intros [Hc H]%Forall_cons. by rewrite rstrip_cons, (IH H), Hc.
Qed.

Lemma rstrip_app_dropped (s r : string) :
  Forall (fun c => drop c = true) (list_ascii_of_string r) ->
  PyStr.rstrip_with drop (s +:+ r) = PyStr.rstrip_with drop s.
Proof.
  intros H. induction s as [|c s IH].
  - rewrite append_nil_l. by apply rstrip_all_dropped.
  - by rewrite append_cons, !rstrip_cons, IH.
Qed.

Lemma strip_app_dropped_r (s r : string) :
  Forall (fun c => drop c = true) (list_ascii_of_string r) ->
  PyStr.strip_with drop (s +:+ r) = PyStr.strip_with drop s.
Proof.
  intros H. unfold PyStr.strip_with. induction s as [|c s IH].
  - rewrite append_nil_l, (lstrip_all_dropped _ _ H). done.
  - rewrite append_cons. cbn [PyStr.lstrip_with].
    destruct (drop c); [exact IH|].
    rewrite <- append_cons. by apply rstrip_app_dropped.
Qed.

Lemma strip_padded (l s r : string) :
  Forall (fun c => drop c = true) (list_ascii_of_string l) ->
  Forall (fun c => drop c = true) (list_ascii_of_string r) ->
  PyStr.strip_with drop (l +:+ s +:+ r) = PyStr.strip_with drop s.
Proof.
  intros Hl Hr. rewrite <- (strip_app_dropped_r s r Hr).
  unfold PyStr.strip_with. by rewrite lstrip_app_dropped.
Qed.

End Padding.

Section GetEnvConfigPadding.

Variable load_dotenv : World -> gmap string string.

(** X13: white space around the value of MAX_RETRIES or RETRY_DELAY does
    not count: the padded value gives what the bare one gives. *)
Theorem get_env_config_int_padding (w : World) (value l s r : string) :
  environ (loaded load_dotenv w) !! "SCRIPT_FILE_NAMES" = Some value ->
  value ≠ "" ->
  Forall (fun c => PyStr.int_space c = true) (list_ascii_of_string l) ->
  Forall (fun c => PyStr.int_space c = true) (list_ascii_of_string r) ->
  exists cfg, fst (get_env_config load_dotenv w) = Ok cfg
    /\ (environ (loaded load_dotenv w) !! "MAX_RETRIES" = Some (l +:+ s +:+ r) ->
        max_retries cfg = int_or 10 s)
    /\ (environ (loaded load_dotenv w) !! "RETRY_DELAY" = Some (l +:+ s +:+ r) ->
        retry_delay cfg = int_or 5 s).
Proof.
  intros Hv Hne Hl Hr.
  destruct (get_env_config_ok load_dotenv w value Hv Hne)
    as (cfg & Hrun & _ & _ & Hm & Hd).
  assert (Hint : PyStr.int (l +:+ s +:+ r) = PyStr.int s)
    by (unfold PyStr.int; by rewrite strip_padded).
  exists cfg. rewrite Hrun, Hm, Hd. unfold int_or.
  split_and!; [done| |]; intros ->; cbn [default id]; by rewrite Hint.
Qed.

End GetEnvConfigPadding.

(** ** Witnesses for the further properties *)

Lemma ensure_directories_blocked_raises_witness :
  exists kind path,
    fst (ensure_directories blocked_world) = Raise (OSError kind path).
Proof.
  apply (ensure_directories_blocked_raises blocked_world "/home/site/logs").
  - left. vm_compute. apply list_elem_of_In. right. right. left. reflexivity.
  - vm_compute. reflexivity.
Defined.

Lemma ensure_directories_again_witness :
  ensure_directories (snd (ensure_directories blocked_world))
  = (Raise (OSError FileExistsError "/home/site/logs"),
     snd (ensure_directories blocked_world)).
Proof.
  apply (ensure_directories_again blocked_world). vm_compute. reflexivity.
Defined.

Lemma ensure_directories_no_rollback_witness :
  fst (ensure_directories half_blocked_world)
  = Raise (OSError FileExistsError "/home/site/rtr-result")
  /\ fs (snd (ensure_directories half_blocked_world)) !! "/home/site/logs"
     = Some Dir.
Proof.
  destruct (ensure_directories_no_rollback half_blocked_world) as [Hr Hd].
  - vm_compute. reflexivity.
  - vm_compute. reflexivity.
  - split; [exact Hr|]. apply Hd. vm_compute.
    apply list_elem_of_In. right. right. left. reflexivity.
Defined.



Lemma get_env_config_reads_decimal_witness :
  exists cfg, fst (get_env_config dotenv_nothing tuned_world) = Ok cfg
    /\ max_retries cfg = (-3)%Z.
Proof.
  destruct (get_env_config_reads_decimal dotenv_nothing tuned_world
              "collect.ps1,report.ps1" [3]) as (cfg & Hok & _ & Hneg & _).
  - vm_compute. reflexivity.
  - discriminate.
  - discriminate.
  - repeat constructor.
  - cbn. lia.
  - exists cfg. split; [exact Hok|]. apply Hneg. vm_compute. reflexivity.
Defined.

Lemma get_env_config_upload_flag_untrimmed_witness :
  exists cfg, fst (get_env_config dotenv_nothing tuned_world) = Ok cfg
    /\ upload_to_bh cfg = false.
Proof.
  apply (get_env_config_upload_flag_untrimmed dotenv_nothing tuned_world
           "collect.ps1,report.ps1" " true").
  - vm_compute. reflexivity.
  - discriminate.
  - vm_compute. reflexivity.
  - vm_compute. reflexivity.
Defined.

Lemma get_env_config_names_clean_witness :
  exists cfg, fst (get_env_config dotenv_nothing tuned_world) = Ok cfg
    /\ length (script_names cfg) <= 2.
Proof.
  destruct (get_env_config_names_clean dotenv_nothing tuned_world
              "collect.ps1,report.ps1") as (cfg & Hok & _ & Hlen).
  - vm_compute. reflexivity.
  - discriminate.
  - exists cfg. split; [exact Hok|]. exact Hlen.
Defined.

Lemma get_env_config_int_padding_witness :
  exists cfg, fst (get_env_config dotenv_nothing padded_world) = Ok cfg
    /\ max_retries cfg = 7%Z.
Proof.
  destruct (get_env_config_int_padding dotenv_nothing padded_world
              "collect.ps1" "  " "7" " ") as (cfg & Hok & Hm & _).
  - vm_compute. reflexivity.
  - discriminate.
  - repeat constructor.
  - repeat constructor.
  - exists cfg. split; [exact Hok|]. rewrite Hm; vm_compute; reflexivity.
Defined.

